(** * LipSick control panel ([app.py]): orchestration layer

    A shallow embedding of the functions of [app.py]
    ([get_versioned_filename], [compute_crop_radius_stats], [process_files],
    [visualize_reference_frames]) and the properties of the specification
    that concern them.

    Conventions of the model:
    - Python [int] values (reference indices, the crop radius, the version
      counter) are [Z]; [str] of an [int] is stdpp's [pretty].
    - Paths and all other Python strings are [string]; [os.path] is the
      POSIX flavour ([posixpath]).
    - [None]-able arguments are [option]s; an exception that a function
      lets out is the left component of the sum it returns.
    - The outside world is a record with the set of existing paths and the
      log of everything the program asked of it; the functions of [app.py]
      are written in a state monad over it. *)

From stdpp Require Import gmap strings list pretty.
From Stdlib Require Import ZArith Ascii.

Local Open Scope string_scope.
Local Open Scope list_scope.
Local Open Scope Z_scope.

(** ** Python strings *)

Module Py.

(** [s[:n]] for [0 <= n]. *)
Fixpoint take (n : nat) (s : string) : string :=
  match n, s with
  | S k, String c r => String c (take k r)
  | _, _ => ""
  end.

(** [s[n:]] for [0 <= n]. *)
Fixpoint drop (n : nat) (s : string) : string :=
  match n, s with
  | S k, String _ r => drop k r
  | _, _ => s
  end.

(** [s.rfind(c)] for a one-character [c], counted from [i], the index of
    the first character of [s]: the index of the last occurrence,
    [-1] when there is none. *)
Fixpoint rfind_from (i : Z) (c : ascii) (s : string) : Z :=
  match s with
  | "" => -1
  | String d r =>
      let j := rfind_from (i + 1) c r in
      if 0 <=? j then j else if Ascii.eqb d c then i else -1
  end.

Definition rfind (c : ascii) (s : string) : Z := rfind_from 0 c s.

(** [s[i:i+1]]: the one-character slice, empty out of range. *)
Definition slice1 (i : nat) (s : string) : string := take 1 (drop i s).

(** [s.startswith(c)] and [s.endswith(c)] for a one-character [c]. *)
Definition startswith (c : ascii) (s : string) : bool :=
  match s with
  | String d _ => Ascii.eqb d c
  | "" => false
  end.

Fixpoint endswith (c : ascii) (s : string) : bool :=
  match s with
  | "" => false
  | String d "" => Ascii.eqb d c
  | String _ r => endswith c r
  end.

(** [sep.join(l)]. *)
Fixpoint join (sep : string) (l : list string) : string :=
  match l with
  | [] => ""
  | [x] => x
  | x :: r => x +:+ sep +:+ join sep r
  end.

(** [str(n)] for an [int]. *)
Definition str (n : Z) : string := pretty n.

(** [c in s] for a one-character [c]. *)
Fixpoint contains (c : ascii) (s : string) : bool :=
  match s with
  | "" => false
  | String d r => Ascii.eqb d c || contains c r
  end.

(** Truth value of an optional string: [None] and [""] are false. *)
Definition truthy (s : option string) : bool :=
  match s with
  | None | Some "" => false
  | Some _ => true
  end.

End Py.

(** ** [os.path] (POSIX) *)

Module os_path.

Definition sep : ascii := "/"%char.
Definition extsep : ascii := "."%char.

(** The loop of [genericpath._splitext] that skips the leading dots of
    the last component: [steps] is [dotIndex - filenameIndex]. *)
Fixpoint splitext_scan (steps filenameIndex dotIndex : nat) (p : string)
  : string * string :=
  match steps with
  | O => (p, "")
  | S k =>
      if negb (String.eqb (Py.slice1 filenameIndex p) (String extsep ""))
      then (Py.take dotIndex p, Py.drop dotIndex p)
      else splitext_scan k (S filenameIndex) dotIndex p
  end.

(** [os.path.splitext(p)]: the extension is what follows the last dot of
    the last component, leading dots of that component not counted. *)
Definition splitext (p : string) : string * string :=
  let sepIndex := Py.rfind sep p in
  let dotIndex := Py.rfind extsep p in
  if sepIndex <? dotIndex then
    let filenameIndex := sepIndex + 1 in
    splitext_scan (Z.to_nat (dotIndex - filenameIndex))
                  (Z.to_nat filenameIndex) (Z.to_nat dotIndex) p
  else (p, "").

(** [os.path.basename(p)]: what follows the last slash. *)
Definition basename (p : string) : string :=
  let i := Py.rfind sep p + 1 in
  Py.drop (Z.to_nat i) p.

(** [os.path.join(a, b)] for two components. *)
Definition join (a b : string) : string :=
  if Py.startswith sep b then b
  else if (String.eqb a "" || Py.endswith sep a)%bool then a +:+ b
  else a +:+ String sep "" +:+ b.

End os_path.

(** ** The outside world *)

(** A [CalledProcessError]: what [subprocess.run(cmd, check=True)] raises
    when the process exits with a non-zero code. *)
Record CalledProcessError := {
  returncode : Z;
  failed_cmd : list string
}.

(** An exception that leaves a function of [app.py] uncaught: the
    [TypeError] that [os.path.basename(None)] raises. A function that can
    raise returns a sum, the exception on the left. *)
Inductive Exception := TypeError.

(** The uploaded-file object handed to [compute_crop_radius_stats]: only
    its [name] attribute is read. *)
Record FileHandle := { name : string }.

Section World.

(** A decoded image and a crop-radius statistic: values the program only
    passes around. *)
Context {Image Stat : Type}.

(** What the program asked of the outside world, with the answer. *)
Inductive Event :=
| EPrint (msg : string)
| EExists (path : string) (answer : bool)
| ESubprocessRun (cmd : list string) (code : Z)
| EDeleteExistingReferenceFrames
| EExtractAndCropFrame (video_path : string) (frame_index : Z)
    (crop_to_face : bool) (frame_path : string)
| EImread (path : string) (frame : Image)
| EOverlayText (frame : Image) (index : Z) (face_detected : bool)
    (annotated : Image)
| EImwrite (path : string) (frame : Image)
| ECalculateCropRadiusStatistics (path : string)
    (stats : Stat * Stat * Stat * Stat).

(** The paths for which [os.path.exists] answers true, and the log. *)
Record World := {
  files : gset string;
  events : list Event
}.

(** The answer of a collaborator in a given world, and the files that
    exist once it has answered. *)
Definition Answer (X : Type) : Type := World -> X * gset string.

(** The collaborators of [app.py] whose code is not part of the file:
    the inference process, [utils.reference_frame], [cv2],
    [compute_crop_radius], and the two [str] conversions of values that
    are printed. Nothing is assumed about them. *)
Class Collaborators := {
  inference_py : list string -> Answer Z;
  reference_frames_deleted : Answer unit;
  frame_extracted : string -> Z -> bool -> Answer string;
  image_read : string -> Answer Image;
  text_overlaid : Image -> Z -> bool -> Answer Image;
  image_written : string -> Image -> Answer unit;
  crop_radius_statistics : string -> Answer (Stat * Stat * Stat * Stat);
  str_error : CalledProcessError -> string;
  str_stat : Stat -> string
}.

(** *** The monad: state over [World]; [None] is a loop out of fuel. *)

Definition M (A : Type) : Type := World -> option (A * World).

Definition ret {A} (a : A) : M A := fun w => Some (a, w).

Definition bind {A B} (m : M A) (k : A -> M B) : M B :=
  fun w => match m w with
           | Some (a, w') => k a w'
           | None => None
           end.

Definition out_of_fuel {A} : M A := fun _ => None.

Definition logged (w : World) (fs : gset string) (e : Event) : World :=
  {| files := fs; events := events w ++ [e] |}.

(** Ask a collaborator, log the question with its answer. *)
Definition ask {X} (answer : Answer X) (ev : X -> Event) : M X :=
  fun w => let '(x, fs) := answer w in Some (x, logged w fs (ev x)).

End World.

Arguments Event : clear implicits.
Arguments World : clear implicits.
Arguments Collaborators : clear implicits.
Arguments M : clear implicits.

Notation "'let!' x ':=' m 'in' k" := (bind m (fun x => k))
  (at level 10, x pattern, m at level 100, k at level 200,
   format "'[v' 'let!'  x  ':='  m  'in' '/' k ']'").
Notation "'do!' m 'in' k" := (bind m (fun _ => k))
  (at level 10, m at level 100, k at level 200,
   format "'[v' 'do!'  m  'in' '/' k ']'").

Section App.

Context {Image Stat : Type} {env : Collaborators Image Stat}.

Local Abbreviation Event := (Event Image Stat).
Local Abbreviation World := (World Image Stat).
Local Abbreviation M := (M Image Stat).

(** *** Primitives *)

Definition print (msg : string) : M unit :=
  fun w => Some ((), logged w (files w) (EPrint msg)).

(** [os.path.exists(path)]: reads the set of files, changes nothing. *)
Definition os_path_exists (path : string) : M bool :=
  fun w => let b := bool_decide (path ∈ files w) in
           Some (b, logged w (files w) (EExists path b)).

(** [subprocess.run(cmd, check=True)]: runs the process to its end; a
    non-zero exit code is raised as a [CalledProcessError]. *)
Definition subprocess_run (cmd : list string) : M (CalledProcessError + unit) :=
  let! code := ask (inference_py cmd) (ESubprocessRun cmd) in
  ret (if code =? 0 then inr ()
        else inl {| returncode := code; failed_cmd := cmd |}).

Definition delete_existing_reference_frames : M unit :=
  ask reference_frames_deleted (fun _ => EDeleteExistingReferenceFrames).

Definition extract_and_crop_frame (video_path : string) (frame_index : Z)
    (crop_to_face : bool) : M string :=
  ask (frame_extracted video_path frame_index crop_to_face)
      (EExtractAndCropFrame video_path frame_index crop_to_face).

Definition cv2_imread (path : string) : M Image :=
  ask (image_read path) (EImread path).

Definition overlay_text (frame : Image) (index : Z) (face_detected : bool)
  : M Image :=
  ask (text_overlaid frame index face_detected)
      (EOverlayText frame index face_detected).

Definition cv2_imwrite (path : string) (frame : Image) : M unit :=
  ask (image_written path frame) (fun _ => EImwrite path frame).

Definition calculate_crop_radius_statistics (path : string)
  : M (Stat * Stat * Stat * Stat) :=
  ask (crop_radius_statistics path) (ECalculateCropRadiusStatistics path).

(** *** [get_versioned_filename] (lines 12-19) *)

(** The f-string [f"{base}({counter}){ext}"]. *)
Definition versioned (base ext : string) (counter : Z) : string :=
  base +:+ "(" +:+ Py.str counter +:+ ")" +:+ ext.

(** The [while] loop of lines 16-18, at most [fuel] iterations of its
    test. *)
Fixpoint versioned_loop (fuel : nat) (base ext : string) (counter : Z)
    (versioned_filepath : string) : M string :=
  match fuel with
  | O => out_of_fuel
  | S fuel' =>
      let! found := os_path_exists versioned_filepath in
      if found
      then versioned_loop fuel' base ext (counter + 1)
                          (versioned base ext counter)
      else ret versioned_filepath
  end.

Definition get_versioned_filename (fuel : nat) (filepath : string) : M string :=
  let '(base, ext) := os_path.splitext filepath in
  let counter := 1 in
  let versioned_filepath := filepath in
  versioned_loop fuel base ext counter versioned_filepath.

(** *** [compute_crop_radius_stats] (lines 21-27): returns the message
    (a string) or the statistic. *)
Definition compute_crop_radius_stats (video_file : option FileHandle)
  : M (string + Stat) :=
  match video_file with
  | None => ret (inl "Please upload a video file first.")
  | Some video_file =>
      do! print "Computing Crop Radius..." in
      let! (_, _, _, most_common) :=
        calculate_crop_radius_statistics (name video_file) in
      do! print ("Done: Crop radius = " +:+ str_stat most_common) in
      ret (inr most_common)
  end.

(** *** [process_files] (lines 29-78) *)

(** Line 30: the slots that are not [None], in slot order. *)
Fixpoint collect (slots : list (option Z)) : list Z :=
  match slots with
  | [] => []
  | Some index :: rest => index :: collect rest
  | None :: rest => collect rest
  end.

(** The test of line 31: [custom_crop_radius is None or
    custom_crop_radius == 0]. *)
Definition none_or_zero (custom_crop_radius : option Z) : bool :=
  match custom_crop_radius with
  | None => true
  | Some r => r =? 0
  end.

(** Lines 30-32: the local [ref_indices] after the offset. *)
Definition ref_indices (custom_crop_radius : option Z)
    (slots : list (option Z)) : list Z :=
  let ref_indices := collect slots in
  if none_or_zero custom_crop_radius
  then map (fun index => index + 5) ref_indices
  else ref_indices.

(** Line 33: the local [ref_indices_str]. *)
Definition ref_indices_str (custom_crop_radius : option Z)
    (slots : list (option Z)) : string :=
  let ref_indices := ref_indices custom_crop_radius slots in
  if (List.length ref_indices =? 5)%nat
  then Py.join "," (map Py.str ref_indices)
  else "".

Definition pretrained_model_path : string := "./asserts/pretrained_lipsick.pth".
Definition deepspeech_model_path : string := "./asserts/output_graph.pb".
Definition res_video_dir : string := "./asserts/inference_result".

(** Lines 43-44: the local [output_video_name]. *)
Definition output_video_name (source_video : string) (auto_mask : bool) : string :=
  let base_name := fst (os_path.splitext (os_path.basename source_video)) in
  if negb auto_mask then base_name +:+ "_lipsick.mp4" else "LipSick_Blend.mp4".

(** Lines 48-65: the local [cmd] once the optional arguments are added. *)
Definition cmd (source_video driving_audio : string)
    (custom_crop_radius : option Z) (auto_mask : bool)
    (ref_indices_str : string) (activate_custom_frames : bool) : list string :=
  let cmd :=
    [ "python"; "inference.py";
      "--source_video_path"; source_video;
      "--driving_audio_path"; driving_audio;
      "--pretrained_lipsick_path"; pretrained_model_path;
      "--deepspeech_model_path"; deepspeech_model_path;
      "--res_video_dir"; res_video_dir;
      "--custom_reference_frames"; ref_indices_str ] in
  let cmd :=
    match custom_crop_radius with
    | Some r => cmd ++ ["--custom_crop_radius"; Py.str r]
    | None => cmd
    end in
  let cmd := if activate_custom_frames
             then cmd ++ ["--activate_custom_frames"] else cmd in
  let cmd := if auto_mask then cmd ++ ["--auto_mask"] else cmd in
  cmd.

(** The function returns the pair wired to the outputs
    [[status_text, output_video]]. The panel passes [None] for a file
    that was not uploaded: the audio is tested at line 35, the source
    video is not, and [os.path.basename(None)] at line 43 raises a
    [TypeError] that nothing catches. *)
Definition process_files (fuel : nat) (source_video : option string)
    (driving_audio : option string) (custom_crop_radius : option Z)
    (auto_mask : bool)
    (ref_index_1 ref_index_2 ref_index_3 ref_index_4 ref_index_5 : option Z)
    (activate_custom_frames : bool) : M (Exception + string * string) :=
  let ref_indices_str :=
    ref_indices_str custom_crop_radius
      [ref_index_1; ref_index_2; ref_index_3; ref_index_4; ref_index_5] in
  match driving_audio with
  | None | Some "" =>
      do! print "Please upload audio first." in
      ret (inr ("", "Error: Audio file is required."))
  | Some driving_audio =>
      match source_video with
      | None => ret (inl TypeError)
      | Some source_video =>
          let output_video_name := output_video_name source_video auto_mask in
          let output_video_path := os_path.join res_video_dir output_video_name in
          let! output_video_path := get_versioned_filename fuel output_video_path in
          let cmd := cmd source_video driving_audio custom_crop_radius auto_mask
                         ref_indices_str activate_custom_frames in
          let! ran := subprocess_run cmd in
          match ran with
          | inr _ =>
              do! print "Complete" in
              do! print "Result saved in ./asserts/inference_results" in
              do! print "Thank you for using LipSick for your Lip-Sync needs." in
              ret (inr ("", output_video_path))
          | inl e =>
              do! print ("An error occurred: " +:+ str_error e) in
              ret (inr ("An error occurred during processing. Please check the console log.", ""))
          end
      end
  end.

(** *** [visualize_reference_frames] (lines 80-91) *)

(** The [for] loop of lines 84-90, [frames] being the list built so far.
    On integers [int(index)] is [index]. *)
Fixpoint visualize_loop (video_path : string) (ref_indices : list (option Z))
    (frames : list string) : M (list string) :=
  match ref_indices with
  | [] => ret frames
  | None :: rest => visualize_loop video_path rest frames
  | Some index :: rest =>
      let! frame_path := extract_and_crop_frame video_path index false in
      let! frame := cv2_imread frame_path in
      let! frame_with_text := overlay_text frame index true in
      do! cv2_imwrite frame_path frame_with_text in
      visualize_loop video_path rest (frames ++ [frame_path])
  end.

Definition visualize_reference_frames (video_path : string)
    (ref_index_1 ref_index_2 ref_index_3 ref_index_4 ref_index_5 : option Z)
    : M (list string) :=
  do! delete_existing_reference_frames in
  let ref_indices :=
    [ref_index_1; ref_index_2; ref_index_3; ref_index_4; ref_index_5] in
  let frames := [] in
  visualize_loop video_path ref_indices frames.

(** *** Vocabulary of the statements *)

(** The probes that found the names [c], [c+1], ..., [c+n-1] taken. *)
Fixpoint taken_probes (base ext : string) (c : Z) (n : nat) : list Event :=
  match n with
  | O => []
  | S n' => EExists (versioned base ext c) true
            :: taken_probes base ext (c + 1) n'
  end.

(** An event that only asks whether a path exists. *)
Definition is_probe (e : Event) : bool :=
  match e with
  | EExists _ _ => true
  | _ => false
  end.

(** An event that launches the inference process. *)
Definition is_run (e : Event) : bool :=
  match e with
  | ESubprocessRun _ _ => true
  | _ => false
  end.

(** [result] is the next free name for [filepath] among the paths [fs]:
    [filepath] itself when it is free, otherwise [base(n)ext] for the
    smallest [n >= 1] that gives a free name. *)
Definition next_free (fs : gset string) (filepath result : string) : Prop :=
  let '(base, ext) := os_path.splitext filepath in
  ((filepath ∉ fs) /\ result = filepath)
  \/ (filepath ∈ fs /\
      exists n : Z, 1 <= n /\ result = versioned base ext n /\
        (result ∉ fs) /\
        forall m : Z, 1 <= m < n -> versioned base ext m ∈ fs).

(** What [visualize_reference_frames] asks for one index: the frame is
    extracted uncropped to [frame_path], read, labelled with the index as
    if a face had been detected, and the labelled image written back to
    [frame_path]. *)
Definition frame_events (video_path : string)
    (step : Z * string * Image * Image) : list Event :=
  let '(index, frame_path, frame, annotated) := step in
  [ EExtractAndCropFrame video_path index false frame_path;
    EImread frame_path frame;
    EOverlayText frame index true annotated;
    EImwrite frame_path annotated ].

(** The index and the path of such a step. *)
Definition step_index (step : Z * string * Image * Image) : Z :=
  fst (fst (fst step)).
Definition step_path (step : Z * string * Image * Image) : string :=
  snd (fst (fst step)).

(** What is printed once the inference process has exited with [code]. *)
Definition closing_prints (cmd : list string) (code : Z) : list Event :=
  if code =? 0
  then [ EPrint "Complete";
         EPrint "Result saved in ./asserts/inference_results";
         EPrint "Thank you for using LipSick for your Lip-Sync needs." ]
  else [ EPrint ("An error occurred: "
                 +:+ str_error {| returncode := code; failed_cmd := cmd |}) ].

End App.

(** ** Stub collaborators, to run the functions on concrete inputs *)

(** Images are labels, statistics are integers; the inference process
    exits with [code] and creates nothing; a frame is extracted to a path
    made from its index. *)
Definition stub_frame_path (frame_index : Z) : string :=
  "./temp/frame_" +:+ Py.str frame_index +:+ ".jpg".

Definition stub (code : Z) : Collaborators string Z := {|
  inference_py := fun _ w => (code, files w);
  reference_frames_deleted := fun w => ((), files w);
  frame_extracted := fun _ frame_index _ w =>
    (stub_frame_path frame_index, files w ∪ {[stub_frame_path frame_index]});
  image_read := fun path w => ("image of " +:+ path, files w);
  text_overlaid := fun frame index _ w =>
    (frame +:+ " labelled " +:+ Py.str index, files w);
  image_written := fun path _ w => ((), files w ∪ {[path]});
  crop_radius_statistics := fun _ w => ((10, 20, 15, 12), files w);
  str_error := fun e => "exit status " +:+ Py.str (returncode e);
  str_stat := Py.str
|}.

Definition world0 (fs : gset string) : World string Z :=
  {| files := fs; events := [] |}.

(** A results directory where two blends are already stored. *)
Definition two_blends : World string Z :=
  world0 {[ "./asserts/inference_result/LipSick_Blend.mp4";
            "./asserts/inference_result/LipSick_Blend(1).mp4" ]}.

(** ** Properties *)

(** *** Strings *)

Lemma append_length (s t : string) :
  String.length (s +:+ t) = (String.length s + String.length t)%nat.
Proof. induction s as [|c s IH]; simpl; [done | by rewrite IH]. Qed.

(** Appending the same suffix is injective. *)
Lemma append_inj_l (s1 s2 t : string) : s1 +:+ t = s2 +:+ t -> s1 = s2.
Proof.
  revert s2. induction s1 as [|c s1 IH]; intros [|d s2] Heq; simpl in *.
  - done.
  - apply (f_equal String.length) in Heq.
    rewrite !append_length in Heq. simpl in Heq. lia.
  - apply (f_equal String.length) in Heq.
    rewrite !append_length in Heq. simpl in Heq. lia.
  - injection Heq as -> Heq. by rewrite (IH _ Heq).
Qed.

(** [rfind] finds the last occurrence: nothing after it is [c], and [-1]
    means that [c] does not occur. *)
Lemma rfind_from_last (c : ascii) (s : string) :
  forall i : Z, 0 <= i ->
    (Py.rfind_from i c s = -1 /\ Py.contains c s = false)
    \/ (i <= Py.rfind_from i c s /\
        Py.contains c (Py.drop (Z.to_nat (Py.rfind_from i c s - i + 1)) s)
        = false).
Proof.
  induction s as [|d r IH]; intros i Hi; simpl.
  - left. done.
  - destruct (IH (i + 1) ltac:(lia)) as [[Hnone Hfree] | [Hpos Hfree]].
    + rewrite Hnone. simpl.
      destruct (Ascii.eqb d c) eqn:Hd; simpl.
      * right. split; [lia |].
        replace (Z.to_nat (i - i + 1)) with 1%nat by lia. done.
      * left. done.
    + destruct (0 <=? Py.rfind_from (i + 1) c r) eqn:Hj; [| lia].
      right. split; [lia |].
      replace (Z.to_nat (Py.rfind_from (i + 1) c r - i + 1))
        with (S (Z.to_nat (Py.rfind_from (i + 1) c r - (i + 1) + 1))) by lia.
      done.
Qed.

Lemma startswith_contains (c : ascii) (s : string) :
  Py.contains c s = false -> Py.startswith c s = false.
Proof. destruct s as [|d r]; simpl; [done |]. by intros [? _]%orb_false_elim. Qed.

Lemma startswith_take (c : ascii) (n : nat) (s : string) :
  Py.startswith c s = false -> Py.startswith c (Py.take n s) = false.
Proof. destruct n, s; done. Qed.

Lemma startswith_append (c : ascii) (s t : string) :
  Py.startswith c s = false -> Py.startswith c t = false ->
  Py.startswith c (s +:+ t) = false.
Proof. destruct s; done. Qed.

(** The base name of a path does not begin with a slash. *)
Lemma basename_not_absolute (p : string) :
  Py.startswith os_path.sep (os_path.basename p) = false.
Proof.
  unfold os_path.basename, Py.rfind. apply startswith_contains.
  destruct (rfind_from_last os_path.sep p 0 ltac:(lia)) as [[-> Hfree] | [_ Hfree]].
  - done.
  - by rewrite Z.sub_0_r in Hfree.
Qed.

(** The root that [splitext] returns is the path or a prefix of it. *)
Lemma splitext_root_prefix (p : string) :
  fst (os_path.splitext p) = p
  \/ exists n : nat, fst (os_path.splitext p) = Py.take n p.
Proof.
  unfold os_path.splitext.
  destruct (Py.rfind os_path.sep p <? Py.rfind os_path.extsep p); [| by left].
  generalize (Z.to_nat (Py.rfind os_path.sep p + 1)) as filenameIndex.
  generalize (Z.to_nat (Py.rfind os_path.extsep p)) as dotIndex.
  generalize (Z.to_nat (Py.rfind os_path.extsep p - (Py.rfind os_path.sep p + 1)))
    as steps.
  induction steps as [|steps IH]; intros dotIndex filenameIndex; simpl.
  - by left.
  - destruct (negb _); [right; by eexists | apply IH].
Qed.

(** The name given to the output video never begins with a slash, so
    joining it to the results directory keeps the directory. *)
Lemma output_video_name_not_absolute (source_video : string) (auto_mask : bool) :
  Py.startswith os_path.sep (output_video_name source_video auto_mask) = false.
Proof.
  unfold output_video_name. destruct auto_mask; simpl; [done |].
  apply startswith_append; [| done].
  destruct (splitext_root_prefix (os_path.basename source_video)) as [-> | [n ->]].
  - apply basename_not_absolute.
  - apply startswith_take, basename_not_absolute.
Qed.

Lemma join_res_video_dir (output_video_name : string) :
  Py.startswith os_path.sep output_video_name = false ->
  os_path.join res_video_dir output_video_name
  = "./asserts/inference_result/" +:+ output_video_name.
Proof. intros Hrel. unfold os_path.join. by rewrite Hrel. Qed.

Section Versioner.

Context {Image Stat : Type} {env : Collaborators Image Stat}.
Local Abbreviation World := (World Image Stat).
Local Abbreviation Event := (Event Image Stat).

(** Two counters never give the same versioned name. *)
Lemma versioned_inj (base ext : string) (n m : Z) :
  versioned base ext n = versioned base ext m -> n = m.
Proof.
  unfold versioned, Py.str. intros Heq.
  apply (inj (String.append base)) in Heq.
  apply (inj (String.append "(")) in Heq.
  apply append_inj_l in Heq.
  by apply (inj pretty) in Heq.
Qed.

(** Among the names numbered from [c] on, one of the first [size fs + 1]
    is free: the set is finite and the names are pairwise distinct. *)
Lemma first_free_exists (fs : gset string) (base ext : string) (c : Z) :
  exists n : nat,
    (n <= size fs)%nat /\
    (versioned base ext (c + Z.of_nat n) ∉ fs) /\
    forall k : nat, (k < n)%nat -> versioned base ext (c + Z.of_nat k) ∈ fs.
Proof.
  set (name := fun k : nat => versioned base ext (c + Z.of_nat k)).
  assert (Hsearch : forall m : nat,
    (exists n : nat, (n < m)%nat /\ (name n ∉ fs) /\
                     forall k : nat, (k < n)%nat -> name k ∈ fs)
    \/ (forall k : nat, (k < m)%nat -> name k ∈ fs)).
  { induction m as [|m [IH | IH]].
    - right. lia.
    - left. destruct IH as (n & ? & ? & ?). exists n. split; [lia | done].
    - destruct (decide (name m ∈ fs)) as [Hin | Hout].
      + right. intros k Hk.
        destruct (decide (k = m)) as [-> | ?]; [done | apply IH; lia].
      + left. exists m. split; [lia | done]. }
  destruct (Hsearch (S (size fs))) as [(n & ? & ? & ?) | Hall].
  { exists n. split; [lia | done]. }
  exfalso.
  assert (Hinj : Inj (=) (=) name).
  { intros i j Hij. apply versioned_inj in Hij. lia. }
  assert (Hsub : name <$> seq 0 (S (size fs)) ⊆+ elements fs).
  { apply NoDup_submseteq.
    - apply (NoDup_fmap_2 name), NoDup_seq.
    - intros x Hx. apply list_elem_of_fmap in Hx as (k & -> & Hk).
      apply elem_of_seq in Hk. apply elem_of_elements, Hall. lia. }
  apply submseteq_length in Hsub.
  rewrite length_fmap, length_seq in Hsub.
  unfold size, set_size in *. simpl in *. lia.
Qed.

(** One turn of the loop when the candidate exists, and when it does not. *)
Lemma versioned_loop_found fuel base ext c vf (w : World) :
  vf ∈ files w ->
  versioned_loop (S fuel) base ext c vf w
  = versioned_loop fuel base ext (c + 1) (versioned base ext c)
      (logged w (files w) (EExists vf true)).
Proof.
  intros Hin. simpl. unfold bind, os_path_exists.
  by rewrite bool_decide_eq_true_2.
Qed.

Lemma versioned_loop_free fuel base ext c vf (w : World) :
  vf ∉ files w ->
  versioned_loop (S fuel) base ext c vf w
  = Some (vf, logged w (files w) (EExists vf false)).
Proof.
  intros Hout. simpl. unfold bind, os_path_exists.
  by rewrite bool_decide_eq_false_2.
Qed.

(** The loop, from an existing candidate [vf], when the names [c] to
    [c+n-1] are taken and the name [c+n] is free. *)
Lemma versioned_loop_run base ext (n : nat) :
  forall fuel c vf (w : World),
    (S n < fuel)%nat ->
    vf ∈ files w ->
    (forall k : nat, (k < n)%nat -> versioned base ext (c + Z.of_nat k) ∈ files w) ->
    versioned base ext (c + Z.of_nat n) ∉ files w ->
    versioned_loop fuel base ext c vf w
    = Some (versioned base ext (c + Z.of_nat n),
            {| files := files w;
               events := events w ++ EExists vf true
                 :: taken_probes base ext c n
                 ++ [EExists (versioned base ext (c + Z.of_nat n)) false] |}).
Proof.
  induction n as [|n IH]; intros fuel c vf w Hfuel Hvf Htaken Hfree.
  - destruct fuel as [|[|fuel]]; [lia | lia |].
    rewrite versioned_loop_found by done.
    replace (c + Z.of_nat 0) with c in * by lia.
    rewrite versioned_loop_free by done.
    unfold logged. simpl. by rewrite <- app_assoc.
  - destruct fuel as [|fuel]; [lia |].
    rewrite versioned_loop_found by done.
    rewrite (IH fuel (c + 1)); simpl.
    + replace (c + 1 + Z.of_nat n) with (c + Z.of_nat (S n)) by lia.
      by rewrite <- app_assoc.
    + lia.
    + specialize (Htaken 0%nat). replace (c + Z.of_nat 0) with c in Htaken by lia.
      apply Htaken. lia.
    + intros k Hk. replace (c + 1 + Z.of_nat k) with (c + Z.of_nat (S k)) by lia.
      apply Htaken. lia.
    + by replace (c + 1 + Z.of_nat n) with (c + Z.of_nat (S n)) by lia.
Qed.

End Versioner.

Section VersionerRun.

Context {Image Stat : Type} {env : Collaborators Image Stat}.
Local Abbreviation World := (World Image Stat).
Local Abbreviation Event := (Event Image Stat).

Lemma taken_probes_are_probes base ext c n :
  forallb is_probe (taken_probes (Image:=Image) (Stat:=Stat) base ext c n) = true.
Proof. revert c. induction n as [|n IH]; intros c; simpl; [done | apply IH]. Qed.

(** A name has at most one next free name. *)
Lemma next_free_unique (fs : gset string) (filepath r1 r2 : string) :
  next_free fs filepath r1 -> next_free fs filepath r2 -> r1 = r2.
Proof.
  unfold next_free. destruct (os_path.splitext filepath) as [base ext].
  intros [[Hout1 ->] | (Hin1 & n1 & Hn1 & -> & Hfree1 & Hmin1)]
         [[Hout2 ->] | (Hin2 & n2 & Hn2 & -> & Hfree2 & Hmin2)];
    try done.
  destruct (Z.lt_trichotomy n1 n2) as [Hlt | [-> | Hgt]]; [| done |].
  - destruct Hfree1. apply Hmin2. lia.
  - destruct Hfree2. apply Hmin1. lia.
Qed.

Lemma next_free_is_free (fs : gset string) (filepath result : string) :
  next_free fs filepath result -> result ∉ fs.
Proof.
  unfold next_free. destruct (os_path.splitext filepath) as [base ext].
  by intros [[Hout ->] | (_ & n & _ & _ & Hfree & _)].
Qed.

(** With fuel for every file of the directory and two more tests, the
    versioner returns the next free name, leaves the files as they are and
    only logs probes. *)
Lemma get_versioned_filename_run (fuel : nat) (filepath : string) (w : World) :
  (size (files w) + 2 <= fuel)%nat ->
  exists result probes,
    get_versioned_filename fuel filepath w
    = Some (result, {| files := files w; events := events w ++ probes |}) /\
    next_free (files w) filepath result /\
    forallb is_probe probes = true.
Proof.
  intros Hfuel. unfold get_versioned_filename, next_free.
  destruct (os_path.splitext filepath) as [base ext].
  destruct (decide (filepath ∈ files w)) as [Hin | Hout].
  - destruct (first_free_exists (files w) base ext 1) as (n & Hn & Hfree & Htaken).
    eexists _, _. split; [| split].
    + apply (versioned_loop_run base ext n); [lia | done | done | done].
    + right. split; [done |]. exists (1 + Z.of_nat n).
      split; [lia |]. split; [done |]. split; [done |].
      intros m Hm. replace m with (1 + Z.of_nat (Z.to_nat (m - 1))) by lia.
      apply Htaken. lia.
    + simpl. rewrite forallb_app, taken_probes_are_probes. done.
  - destruct fuel as [|fuel]; [lia |].
    exists filepath, [EExists filepath false]. split; [| split].
    + by rewrite versioned_loop_free.
    + left. done.
    + done.
Qed.

(** Whatever the fuel, a run of the loop that returns has changed no file
    and logged only probes. *)
Lemma versioned_loop_frame (fuel : nat) :
  forall base ext c vf (w : World) result w',
    versioned_loop fuel base ext c vf w = Some (result, w') ->
    files w' = files w /\
    exists probes,
      events w' = events w ++ probes /\ forallb is_probe probes = true.
Proof.
  induction fuel as [|fuel IH]; intros base ext c vf w result w' Hrun.
  - discriminate.
  - simpl in Hrun. unfold bind, os_path_exists in Hrun.
    destruct (bool_decide (vf ∈ files w)).
    + apply IH in Hrun as (Hfiles & probes & Hevents & Hprobes).
      split; [exact Hfiles |].
      exists (EExists vf true :: probes). split; [| exact Hprobes].
      rewrite Hevents. simpl. by rewrite <- app_assoc.
    + injection Hrun as <- <-. split; [done |].
      by exists [EExists vf false].
Qed.

Lemma get_versioned_filename_frame
    (fuel : nat) (filepath : string) (w : World) result w' :
  get_versioned_filename fuel filepath w = Some (result, w') ->
  files w' = files w /\
  exists probes,
    events w' = events w ++ probes /\ forallb is_probe probes = true.
Proof.
  unfold get_versioned_filename.
  destruct (os_path.splitext filepath) as [base ext].
  apply versioned_loop_frame.
Qed.

End VersionerRun.

(** ** The Filename Versioner *)

Section VersionerClaims.

Context {Image Stat : Type} {env : Collaborators Image Stat}.
Local Abbreviation World := (World Image Stat).
Local Abbreviation Event := (Event Image Stat).

(** C5. With fuel for the files of the directory, [get_versioned_filename]
    returns. It returns the candidate unchanged when no file exists at it.
    When a file exists at it, it returns [base(n)ext], where [(base, ext)]
    is the [splitext] of the candidate and [n] is the smallest positive
    integer for which no file [base(n)ext] exists. A second call, in the
    world the first one leaves or in any world with the same files,
    returns the same path. *)
Theorem get_versioned_filename_next_free
    (fuel : nat) (filepath : string) (w : World) :
  (size (files w) + 2 <= fuel)%nat ->
  exists result w',
    get_versioned_filename fuel filepath w = Some (result, w') /\
    (filepath ∉ files w -> result = filepath) /\
    (filepath ∈ files w ->
       exists n : Z,
         1 <= n /\
         result = versioned (fst (os_path.splitext filepath))
                            (snd (os_path.splitext filepath)) n /\
         (result ∉ files w) /\
         forall m : Z, 1 <= m < n ->
           versioned (fst (os_path.splitext filepath))
                     (snd (os_path.splitext filepath)) m ∈ files w) /\
    (exists w'', get_versioned_filename fuel filepath w' = Some (result, w'')) /\
    (forall (fuel2 : nat) (w2 : World),
       files w2 = files w -> (size (files w2) + 2 <= fuel2)%nat ->
       exists w2', get_versioned_filename fuel2 filepath w2 = Some (result, w2')).
Proof.
  intros Hfuel.
  destruct (get_versioned_filename_run fuel filepath w Hfuel)
    as (result & probes & Hrun & Hnext & _).
  assert (Hagain : forall (fuel2 : nat) (w2 : World),
    files w2 = files w -> (size (files w2) + 2 <= fuel2)%nat ->
    exists w2', get_versioned_filename fuel2 filepath w2 = Some (result, w2')).
  { intros fuel2 w2 Hfiles Hfuel2.
    destruct (get_versioned_filename_run fuel2 filepath w2 Hfuel2)
      as (result2 & probes2 & Hrun2 & Hnext2 & _).
    rewrite Hfiles in Hnext2.
    rewrite (next_free_unique _ _ _ _ Hnext Hnext2). eauto. }
  eexists _, _. split; [exact Hrun |].
  unfold next_free in Hnext.
  destruct (os_path.splitext filepath) as [base ext]. simpl.
  repeat split.
  - intros Hout. destruct Hnext as [[_ ->] | [Hin _]]; done.
  - intros Hin. destruct Hnext as [[Hout _] | [_ Hn]]; done.
  - apply Hagain; done.
  - exact Hagain.
Qed.

(** C10. [get_versioned_filename] leaves the set of files as it found it,
    and everything it asks of the outside world is whether a path
    exists. *)
Theorem get_versioned_filename_read_only
    (fuel : nat) (filepath : string) (w : World) :
  (size (files w) + 2 <= fuel)%nat ->
  exists result w' probes,
    get_versioned_filename fuel filepath w = Some (result, w') /\
    files w' = files w /\
    events w' = events w ++ probes /\
    forallb is_probe probes = true.
Proof.
  intros Hfuel.
  destruct (get_versioned_filename_run fuel filepath w Hfuel)
    as (result & probes & Hrun & _ & Hprobes).
  eexists _, _, probes. split; [exact Hrun |]. done.
Qed.

End VersionerClaims.

(** ** The request orchestrator: [process_files] *)

Section ProcessFiles.

Context {Image Stat : Type} {env : Collaborators Image Stat}.
Local Abbreviation World := (World Image Stat).
Local Abbreviation Event := (Event Image Stat).

(** Without driving audio the function prints, returns, and asks nothing
    else of the outside world. *)
Lemma process_files_no_audio
    (fuel : nat) (source_video driving_audio : option string)
    (custom_crop_radius : option Z) (auto_mask : bool)
    (r1 r2 r3 r4 r5 : option Z) (activate_custom_frames : bool) (w : World) :
  Py.truthy driving_audio = false ->
  process_files fuel source_video driving_audio custom_crop_radius auto_mask
                r1 r2 r3 r4 r5 activate_custom_frames w
  = Some (inr ("", "Error: Audio file is required."),
          {| files := files w;
             events := events w ++ [EPrint "Please upload audio first."] |}).
Proof.
  intros Habsent. unfold process_files.
  destruct driving_audio as [[|c s] |]; [done | discriminate | done].
Qed.

(** With driving audio and no source video the call raises at once: the
    world is as it was. *)
Lemma process_files_no_source
    (fuel : nat) (driving_audio : string)
    (custom_crop_radius : option Z) (auto_mask : bool)
    (r1 r2 r3 r4 r5 : option Z) (activate_custom_frames : bool) (w : World) :
  driving_audio <> "" ->
  process_files fuel None (Some driving_audio) custom_crop_radius auto_mask
                r1 r2 r3 r4 r5 activate_custom_frames w
  = Some (inl TypeError, w).
Proof.
  intros Haudio. unfold process_files. by destruct driving_audio.
Qed.

(** With a source video, driving audio and fuel for the versioner: the
    output path is the next free name for the joined path, the inference
    process is run once on [cmd], and its exit code decides what is
    returned. *)
Lemma process_files_run
    (fuel : nat) (source_video driving_audio : string)
    (custom_crop_radius : option Z) (auto_mask : bool)
    (r1 r2 r3 r4 r5 : option Z) (activate_custom_frames : bool) (w : World) :
  driving_audio <> "" ->
  (size (files w) + 2 <= fuel)%nat ->
  let candidate :=
    os_path.join res_video_dir (output_video_name source_video auto_mask) in
  let command :=
    cmd source_video driving_audio custom_crop_radius auto_mask
        (ref_indices_str custom_crop_radius [r1; r2; r3; r4; r5])
        activate_custom_frames in
  exists output_video_path probes,
    let w1 := {| files := files w; events := events w ++ probes |} in
    let code := fst (inference_py command w1) in
    get_versioned_filename fuel candidate w = Some (output_video_path, w1) /\
    next_free (files w) candidate output_video_path /\
    forallb is_probe probes = true /\
    process_files fuel (Some source_video) (Some driving_audio)
                  custom_crop_radius auto_mask r1 r2 r3 r4 r5
                  activate_custom_frames w
    = Some (inr (if code =? 0
                 then ("", output_video_path)
                 else ("An error occurred during processing. Please check the console log.", "")),
            {| files := snd (inference_py command w1);
               events := events w ++ probes
                 ++ ESubprocessRun command code
                 :: closing_prints command code |}).
Proof.
  intros Haudio Hfuel candidate command.
  destruct (get_versioned_filename_run fuel candidate w Hfuel)
    as (path & probes & Hrun & Hnext & Hprobes).
  exists path, probes. cbv zeta. split; [exact Hrun |].
  split; [exact Hnext |]. split; [exact Hprobes |].
  unfold process_files.
  destruct driving_audio as [|a s]; [done |].
  fold candidate. fold command.
  unfold bind at 1. rewrite Hrun.
  unfold subprocess_run, bind, ask, closing_prints.
  destruct (inference_py command _) as [code fs'] eqn:Hcode. simpl.
  destruct (code =? 0); simpl; unfold logged; simpl;
    repeat rewrite <- app_assoc; reflexivity.
Qed.

(** Probes and prints are not launches of the inference process. *)
Lemma probes_not_runs (probes : list Event) :
  forallb is_probe probes = true ->
  filter (fun e => is_run e = true) probes = [].
Proof.
  induction probes as [|e probes IH]; simpl; [done |].
  intros [He Hprobes]%andb_true_iff.
  rewrite filter_cons_False; [by apply IH |].
  destruct e; simpl in *; congruence.
Qed.

Lemma closing_prints_not_runs (command : list string) (code : Z) :
  filter (fun e => is_run e = true) (closing_prints command code) = [].
Proof. unfold closing_prints. by destruct (code =? 0). Qed.

End ProcessFiles.

Section ProcessFilesClaims.

Context {Image Stat : Type} {env : Collaborators Image Stat}.
Local Abbreviation World := (World Image Stat).
Local Abbreviation Event := (Event Image Stat).

(** C1 (what the code does). A call without driving audio, [None] or the
    empty string, launches nothing: it prints one line and returns. But
    the pair it returns has the empty string in the status position and
    the error message in the output-path position, the reverse of the
    order of the two other [return]s of the function. *)
Theorem process_files_no_audio_message_in_path_position
    (fuel : nat) (source_video : option string)
    (custom_crop_radius : option Z) (auto_mask : bool)
    (r1 r2 r3 r4 r5 : option Z) (activate_custom_frames : bool) (w : World) :
  let call driving_audio :=
    process_files fuel source_video driving_audio custom_crop_radius
                  auto_mask r1 r2 r3 r4 r5 activate_custom_frames w in
  let outcome :=
    Some (inr ("", "Error: Audio file is required."),
          {| files := files w;
             events := events w ++ [EPrint "Please upload audio first."] |}) in
  call None = outcome /\ call (Some "") = outcome /\
  filter (fun e => is_run e = true)
         (events w ++ [EPrint "Please upload audio first."])
  = filter (fun e => is_run e = true) (events w).
Proof.
  cbv zeta. split; [| split].
  - by apply process_files_no_audio.
  - by apply process_files_no_audio.
  - rewrite filter_app, filter_cons_False by (simpl; congruence).
    by rewrite filter_nil, app_nil_r.
Qed.

(** C2. The collected reference indices are each incremented by 5 when
    [custom_crop_radius] is [None] or zero, and are left as they are for
    any other value. So the slots 1, 2, 3, 4, 5 give the string
    "6,7,8,9,10" without a crop radius and "1,2,3,4,5" with the crop
    radius 50. *)
Theorem ref_indices_offset_iff_no_crop_radius
    (custom_crop_radius : option Z) (slots : list (option Z)) :
  ((custom_crop_radius = None \/ custom_crop_radius = Some 0) ->
     ref_indices custom_crop_radius slots
     = map (fun index => index + 5) (collect slots)) /\
  (~ (custom_crop_radius = None \/ custom_crop_radius = Some 0) ->
     ref_indices custom_crop_radius slots = collect slots) /\
  ref_indices_str None [Some 1; Some 2; Some 3; Some 4; Some 5] = "6,7,8,9,10" /\
  ref_indices_str (Some 50) [Some 1; Some 2; Some 3; Some 4; Some 5] = "1,2,3,4,5".
Proof.
  unfold ref_indices. split; [| split; [| split]].
  - by intros [-> | ->].
  - intros Hsupplied. destruct custom_crop_radius as [r |]; simpl.
    + destruct (Z.eqb_spec r 0) as [-> | _]; [| done].
      destruct Hsupplied. by right.
    + destruct Hsupplied. by left.
  - by vm_compute.
  - by vm_compute.
Qed.

(** C4. The indices are collected from the slots that are not [None], in
    slot order. The string passed downstream is the comma-separated join
    of the collected indices (after the offset, if any) when five are
    present, and the empty string otherwise: the slots 3, None, 7, None,
    None collect to 3, 7 and give the empty string. *)
Theorem ref_indices_str_only_for_five
    (custom_crop_radius : option Z) (slots : list (option Z)) :
  Some <$> collect slots = filter is_Some slots /\
  List.length (ref_indices custom_crop_radius slots) = List.length (collect slots) /\
  (List.length (collect slots) = 5%nat ->
     ref_indices_str custom_crop_radius slots
     = Py.join "," (map Py.str (ref_indices custom_crop_radius slots))) /\
  (List.length (collect slots) <> 5%nat ->
     ref_indices_str custom_crop_radius slots = "") /\
  collect [Some 3; None; Some 7; None; None] = [3; 7] /\
  ref_indices_str custom_crop_radius [Some 3; None; Some 7; None; None] = "".
Proof.
  assert (Hlen : List.length (ref_indices custom_crop_radius slots)
                 = List.length (collect slots)).
  { unfold ref_indices. destruct (none_or_zero _); [apply length_map | done]. }
  split; [| split; [exact Hlen | split; [| split; [| split]]]].
  - clear Hlen.
    induction slots as [|[index |] rest IH]; cbn [collect]; [done | |].
    + rewrite fmap_cons, IH. by rewrite filter_cons_True by eauto.
    + rewrite IH. by rewrite filter_cons_False by (intros [? ?]; done).
  - intros Hfive. unfold ref_indices_str.
    by rewrite Hlen, Hfive.
  - intros Hother. unfold ref_indices_str. rewrite Hlen.
    by destruct (Nat.eqb_spec (List.length (collect slots)) 5).
  - done.
  - unfold ref_indices_str, ref_indices.
    by destruct (none_or_zero custom_crop_radius).
Qed.

(** C3. With [custom_crop_radius] equal to 0 the collected indices are
    offset by 5, as if no radius had been supplied, and the command that
    is run still carries the pair [--custom_crop_radius 0], as a supplied
    radius does. The test for the offset and the test for the argument
    give opposite answers at zero and nowhere else. *)
Theorem crop_radius_zero_offset_and_argument
    (fuel : nat) (source_video driving_audio : string) (auto_mask : bool)
    (r1 r2 r3 r4 r5 : option Z) (activate_custom_frames : bool) (w : World) :
  driving_audio <> "" ->
  (size (files w) + 2 <= fuel)%nat ->
  let slots := [r1; r2; r3; r4; r5] in
  let command :=
    cmd source_video driving_audio (Some 0) auto_mask
        (ref_indices_str (Some 0) slots) activate_custom_frames in
  ref_indices (Some 0) slots = map (fun index => index + 5) (collect slots) /\
  (exists flags,
     command
     = [ "python"; "inference.py";
         "--source_video_path"; source_video;
         "--driving_audio_path"; driving_audio;
         "--pretrained_lipsick_path"; "./asserts/pretrained_lipsick.pth";
         "--deepspeech_model_path"; "./asserts/output_graph.pb";
         "--res_video_dir"; "./asserts/inference_result";
         "--custom_reference_frames"; ref_indices_str (Some 0) slots;
         "--custom_crop_radius"; "0" ] ++ flags) /\
  (exists result w' code,
     process_files fuel (Some source_video) (Some driving_audio) (Some 0)
                   auto_mask r1 r2 r3 r4 r5 activate_custom_frames w
     = Some (result, w') /\
     ESubprocessRun command code ∈ events w') /\
  (forall (custom_crop_radius : option Z) (ref_indices_str : string),
     none_or_zero custom_crop_radius
     = bool_decide
         (cmd source_video driving_audio custom_crop_radius auto_mask
              ref_indices_str activate_custom_frames !! 14%nat
          = Some "--custom_crop_radius")
     <-> custom_crop_radius = Some 0).
Proof.
  intros Haudio Hfuel slots command.
  split; [done |]. split; [| split].
  - unfold command, cmd.
    destruct activate_custom_frames, auto_mask; simpl; eauto.
  - destruct (process_files_run fuel source_video driving_audio (Some 0)
                auto_mask r1 r2 r3 r4 r5 activate_custom_frames w Haudio Hfuel)
      as (path & probes & _ & _ & _ & Hrun).
    cbv zeta in Hrun. fold slots in Hrun. fold command in Hrun.
    eexists _, _, _. split; [exact Hrun |]. simpl.
    rewrite !elem_of_app. right. right. apply list_elem_of_here.
  - intros custom_crop_radius s.
    destruct custom_crop_radius as [r |]; simpl.
    + rewrite bool_decide_eq_true_2.
      2:{ destruct activate_custom_frames, auto_mask; reflexivity. }
      destruct (Z.eqb_spec r 0) as [-> | Hr]; [done |].
      split; [done | by intros [= ->]].
    + rewrite bool_decide_eq_false_2; [done |].
      destruct activate_custom_frames, auto_mask; simpl; discriminate.
Qed.

(** C6 (amended). In a call with a source video path and driving audio
    the output video is named [LipSick_Blend.mp4] when [auto_mask] is set
    and [<base name of the source>_lipsick.mp4] when it is not
    ([clip_lipsick.mp4] for [clip.mp4]). The output path is what
    [get_versioned_filename] returns for that name joined to the results
    directory: the call first runs the versioner on it, the path is the
    next free name, no file exists at it when it is chosen, the inference
    process is launched in the world the versioner leaves, and the path is
    the one returned when the process exits with code 0. *)
Theorem output_video_path_named_and_versioned
    (fuel : nat) (source_video driving_audio : string)
    (custom_crop_radius : option Z) (auto_mask : bool)
    (r1 r2 r3 r4 r5 : option Z) (activate_custom_frames : bool) (w : World) :
  driving_audio <> "" ->
  (size (files w) + 2 <= fuel)%nat ->
  let name :=
    if auto_mask then "LipSick_Blend.mp4"
    else fst (os_path.splitext (os_path.basename source_video))
         +:+ "_lipsick.mp4" in
  let candidate := "./asserts/inference_result/" +:+ name in
  let command :=
    cmd source_video driving_audio custom_crop_radius auto_mask
        (ref_indices_str custom_crop_radius [r1; r2; r3; r4; r5])
        activate_custom_frames in
  output_video_name source_video auto_mask = name /\
  os_path.join res_video_dir name = candidate /\
  output_video_name "clip.mp4" true = "LipSick_Blend.mp4" /\
  output_video_name "clip.mp4" false = "clip_lipsick.mp4" /\
  exists output_video_path w1,
    get_versioned_filename fuel candidate w = Some (output_video_path, w1) /\
    next_free (files w) candidate output_video_path /\
    (output_video_path ∉ files w) /\
    exists result w',
      process_files fuel (Some source_video) (Some driving_audio)
                    custom_crop_radius auto_mask r1 r2 r3 r4 r5
                    activate_custom_frames w
      = Some (result, w') /\
      events w'
      = events w1
        ++ ESubprocessRun command (fst (inference_py command w1))
        :: closing_prints command (fst (inference_py command w1)) /\
      (fst (inference_py command w1) = 0 ->
         result = inr ("", output_video_path)) /\
      (fst (inference_py command w1) <> 0 ->
         result = inr ("An error occurred during processing. Please check the console log.", "")).
Proof.
  intros Haudio Hfuel name candidate command.
  assert (Hname : output_video_name source_video auto_mask = name).
  { unfold output_video_name, name. by destruct auto_mask. }
  assert (Hjoin : os_path.join res_video_dir name = candidate).
  { apply join_res_video_dir. rewrite <- Hname.
    apply output_video_name_not_absolute. }
  split; [exact Hname |]. split; [exact Hjoin |].
  split; [done |]. split; [done |].
  destruct (process_files_run fuel source_video driving_audio custom_crop_radius
              auto_mask r1 r2 r3 r4 r5 activate_custom_frames w Haudio Hfuel)
    as (path & probes & Hversioned & Hnext & _ & Hrun).
  cbv zeta in Hversioned, Hnext, Hrun. fold command in Hrun.
  rewrite Hname, Hjoin in *.
  eexists _, _. split; [exact Hversioned |]. split; [exact Hnext |].
  split; [by eapply next_free_is_free |].
  eexists _, _. split; [exact Hrun |].
  split; [| split].
  - simpl. by rewrite <- app_assoc.
  - intros ->. done.
  - intros Hcode. apply Z.eqb_neq in Hcode. by rewrite Hcode.
Qed.

(** C7. In a call that reaches the launch, a source video path and
    driving audio being given, the inference process is run, once, on the
    command line built from the arguments. When it exits with
    code 0 the call returns the empty status message and the versioned
    output path; when it exits with another code the call returns the
    generic failure message and the empty output path. *)
Theorem process_files_result_follows_exit_code
    (fuel : nat) (source_video driving_audio : string)
    (custom_crop_radius : option Z) (auto_mask : bool)
    (r1 r2 r3 r4 r5 : option Z) (activate_custom_frames : bool) (w : World) :
  driving_audio <> "" ->
  (size (files w) + 2 <= fuel)%nat ->
  let command :=
    cmd source_video driving_audio custom_crop_radius auto_mask
        (ref_indices_str custom_crop_radius [r1; r2; r3; r4; r5])
        activate_custom_frames in
  exists output_video_path w1 result w',
    get_versioned_filename fuel
      (os_path.join res_video_dir (output_video_name source_video auto_mask)) w
    = Some (output_video_path, w1) /\
    process_files fuel (Some source_video) (Some driving_audio)
                  custom_crop_radius auto_mask r1 r2 r3 r4 r5
                  activate_custom_frames w
    = Some (result, w') /\
    filter (fun e => is_run e = true) (events w')
    = filter (fun e => is_run e = true) (events w)
      ++ [ESubprocessRun command (fst (inference_py command w1))] /\
    (fst (inference_py command w1) = 0 ->
       result = inr ("", output_video_path)) /\
    (fst (inference_py command w1) <> 0 ->
       result = inr ("An error occurred during processing. Please check the console log.", "")).
Proof.
  intros Haudio Hfuel command.
  destruct (process_files_run fuel source_video driving_audio custom_crop_radius
              auto_mask r1 r2 r3 r4 r5 activate_custom_frames w Haudio Hfuel)
    as (path & probes & Hversioned & _ & Hprobes & Hrun).
  cbv zeta in Hversioned, Hrun. fold command in Hrun.
  eexists _, _, _, _. split; [exact Hversioned |]. split; [exact Hrun |].
  split; [| split].
  - simpl. rewrite !filter_app, filter_cons_True by done.
    rewrite (probes_not_runs probes Hprobes), closing_prints_not_runs.
    by rewrite app_nil_l.
  - intros ->. done.
  - intros Hcode. apply Z.eqb_neq in Hcode. by rewrite Hcode.
Qed.

End ProcessFilesClaims.

(** ** The request orchestrator: the two helpers of the panel *)

Section Helpers.

Context {Image Stat : Type} {env : Collaborators Image Stat}.
Local Abbreviation World := (World Image Stat).
Local Abbreviation Event := (Event Image Stat).

(** The loop of [visualize_reference_frames] takes one step per slot that
    is not [None], in slot order, and appends the path of each step. *)
Lemma visualize_loop_run (video_path : string) (ref_indices : list (option Z)) :
  forall (frames : list string) (w : World),
  exists (steps : list (Z * string * Image * Image)) (w' : World),
    visualize_loop video_path ref_indices frames w
    = Some (frames ++ map step_path steps, w') /\
    map step_index steps = collect ref_indices /\
    events w' = events w ++ concat (map (frame_events video_path) steps).
Proof.
  induction ref_indices as [|[index |] rest IH]; intros frames w.
  - exists [], w. simpl. by rewrite !app_nil_r.
  - cbn [visualize_loop].
    unfold bind, extract_and_crop_frame, cv2_imread, overlay_text,
      cv2_imwrite, ask.
    destruct (frame_extracted video_path index false w)
      as [frame_path fs1].
    destruct (image_read frame_path _) as [frame fs2].
    destruct (text_overlaid frame index true _) as [annotated fs3].
    destruct (image_written frame_path annotated _) as [[] fs4].
    match goal with
    | |- context [visualize_loop _ _ _ ?w4] =>
        destruct (IH (frames ++ [frame_path]) w4) as (steps & w' & Hrun & Hidx & Hev)
    end.
    exists ((index, frame_path, frame, annotated) :: steps), w'.
    split; [| split].
    + rewrite Hrun. simpl. by rewrite <- app_assoc.
    + simpl. by rewrite Hidx.
    + rewrite Hev. simpl. by repeat rewrite <- app_assoc.
  - apply IH.
Qed.

(** C8. [visualize_reference_frames] first has the earlier reference
    frames deleted. Then, for each index that is not [None], in slot
    order, it has the frame extracted without cropping to the face, reads
    it, has it labelled with the index as if a face had been detected,
    and writes the labelled image back to the path of the extracted
    frame. It returns those paths: one per index that is not [None], in
    slot order. For the indices 0 and 2 and nothing else it returns two
    paths, the frame of 0 then the frame of 2. *)
Theorem visualize_reference_frames_steps
    (video_path : string) (r1 r2 r3 r4 r5 : option Z) (w : World) :
  (exists (steps : list (Z * string * Image * Image)) (w' : World),
     visualize_reference_frames video_path r1 r2 r3 r4 r5 w
     = Some (map step_path steps, w') /\
     map step_index steps = collect [r1; r2; r3; r4; r5] /\
     events w'
     = events w ++ EDeleteExistingReferenceFrames
         :: concat (map (frame_events video_path) steps)) /\
  (exists (frame_0 frame_2 : string) (w' : World),
     visualize_reference_frames video_path (Some 0) (Some 2) None None None w
     = Some ([frame_0; frame_2], w') /\
     EExtractAndCropFrame video_path 0 false frame_0 ∈ events w' /\
     EExtractAndCropFrame video_path 2 false frame_2 ∈ events w').
Proof.
  assert (Hgeneral : forall r1 r2 r3 r4 r5,
    exists (steps : list (Z * string * Image * Image)) (w' : World),
     visualize_reference_frames video_path r1 r2 r3 r4 r5 w
     = Some (map step_path steps, w') /\
     map step_index steps = collect [r1; r2; r3; r4; r5] /\
     events w'
     = events w ++ EDeleteExistingReferenceFrames
         :: concat (map (frame_events video_path) steps)).
  { clear r1 r2 r3 r4 r5. intros r1 r2 r3 r4 r5.
    unfold visualize_reference_frames, bind at 1,
      delete_existing_reference_frames, ask.
    destruct (reference_frames_deleted w) as [[] fs0].
    match goal with
    | |- context [visualize_loop _ _ _ ?w0] =>
        destruct (visualize_loop_run video_path [r1; r2; r3; r4; r5] [] w0)
          as (steps & w' & Hrun & Hidx & Hev)
    end.
    exists steps, w'. split; [exact Hrun |]. split; [exact Hidx |].
    rewrite Hev. simpl. by rewrite <- app_assoc. }
  split; [apply Hgeneral |].
  destruct (Hgeneral (Some 0) (Some 2) None None None)
    as (steps & w' & Hrun & Hidx & Hev).
  destruct steps as [|[[[i0 frame_0] f0] a0] [|[[[i2 frame_2] f2] a2] [|? ?]]];
    try discriminate.
  injection Hidx as Hi0 Hi2. unfold step_index in Hi0, Hi2. simpl in Hi0, Hi2.
  subst i0 i2.
  exists frame_0, frame_2, w'. split; [exact Hrun |].
  rewrite Hev. simpl. split; apply elem_of_app; right.
  - apply list_elem_of_further, list_elem_of_here.
  - do 5 apply list_elem_of_further. apply list_elem_of_here.
Qed.

(** C9. Without a video file [compute_crop_radius_stats] returns the
    message and asks nothing of the outside world. With a video file it
    has the statistics computed, once, for the [name] of the file and
    returns the last element of the four that come back. *)
Theorem compute_crop_radius_stats_message_or_most_common (w : World) :
  compute_crop_radius_stats None w
  = Some (inl "Please upload a video file first.", w) /\
  forall video_file : FileHandle,
    exists (s1 s2 s3 most_common : Stat) (w' : World),
      compute_crop_radius_stats (Some video_file) w
      = Some (inr most_common, w') /\
      events w'
      = events w
        ++ [ EPrint "Computing Crop Radius...";
             ECalculateCropRadiusStatistics (name video_file)
               (s1, s2, s3, most_common);
             EPrint ("Done: Crop radius = " +:+ str_stat most_common) ] /\
      fst (crop_radius_statistics (name video_file)
             (logged w (files w) (EPrint "Computing Crop Radius...")))
      = (s1, s2, s3, most_common).
Proof.
  split; [done |]. intros video_file.
  unfold compute_crop_radius_stats, bind, print,
    calculate_crop_radius_statistics, ask.
  destruct (crop_radius_statistics (name video_file) _)
    as [[[[s1 s2] s3] most_common] fs1].
  eexists s1, s2, s3, most_common, _. split; [reflexivity |].
  split; [| done].
  simpl. by repeat rewrite <- app_assoc.
Qed.

End Helpers.

(** ** The statements at concrete inputs *)

Lemma get_versioned_filename_next_free_witness :
  (size (files two_blends) + 2 <= 4)%nat /\
  exists w',
    get_versioned_filename 4
      "./asserts/inference_result/LipSick_Blend.mp4" two_blends
    = Some ("./asserts/inference_result/LipSick_Blend(2).mp4", w').
Proof.
  assert (Hfuel : (size (files two_blends) + 2 <= 4)%nat) by (vm_compute; lia).
  split; [exact Hfuel |].
  destruct (get_versioned_filename_next_free 4
              "./asserts/inference_result/LipSick_Blend.mp4" two_blends Hfuel)
    as (result & w' & Hrun & _).
  exists w'. rewrite Hrun. vm_compute in Hrun. congruence.
Defined.

Lemma get_versioned_filename_read_only_witness :
  (size (files two_blends) + 2 <= 4)%nat /\
  exists result w' probes,
    get_versioned_filename 4
      "./asserts/inference_result/LipSick_Blend.mp4" two_blends
    = Some (result, w') /\
    files w' = files two_blends /\
    events w' = events two_blends ++ probes /\
    forallb is_probe probes = true.
Proof.
  assert (Hfuel : (size (files two_blends) + 2 <= 4)%nat) by (vm_compute; lia).
  split; [exact Hfuel |].
  exact (get_versioned_filename_read_only 4
           "./asserts/inference_result/LipSick_Blend.mp4" two_blends Hfuel).
Defined.

Lemma crop_radius_zero_offset_and_argument_witness :
  "speech.wav" <> "" /\
  (size (files two_blends) + 2 <= 4)%nat /\
  exists result w' code,
    process_files (env := stub 0) 4 (Some "up/clip.mp4") (Some "speech.wav") (Some 0)
      true (Some 1) (Some 2) (Some 3) (Some 4) (Some 5) true two_blends
    = Some (result, w') /\
    ESubprocessRun
      [ "python"; "inference.py";
        "--source_video_path"; "up/clip.mp4";
        "--driving_audio_path"; "speech.wav";
        "--pretrained_lipsick_path"; "./asserts/pretrained_lipsick.pth";
        "--deepspeech_model_path"; "./asserts/output_graph.pb";
        "--res_video_dir"; "./asserts/inference_result";
        "--custom_reference_frames"; "6,7,8,9,10";
        "--custom_crop_radius"; "0";
        "--activate_custom_frames"; "--auto_mask" ] code ∈ events w'.
Proof.
  assert (Haudio : "speech.wav" <> "") by discriminate.
  assert (Hfuel : (size (files two_blends) + 2 <= 4)%nat) by (vm_compute; lia).
  split; [exact Haudio |]. split; [exact Hfuel |].
  destruct (crop_radius_zero_offset_and_argument (env := stub 0) 4
              "up/clip.mp4" "speech.wav" true
              (Some 1) (Some 2) (Some 3) (Some 4) (Some 5) true two_blends
              Haudio Hfuel)
    as (_ & _ & Hrun & _).
  exact Hrun.
Defined.

Lemma output_video_path_named_and_versioned_witness :
  "speech.wav" <> "" /\
  (size (files two_blends) + 2 <= 4)%nat /\
  exists output_video_path w1 w',
    get_versioned_filename 4
      "./asserts/inference_result/LipSick_Blend.mp4" two_blends
    = Some (output_video_path, w1) /\
    (output_video_path ∉ files two_blends) /\
    process_files (env := stub 0) 4 (Some "up/clip.mp4") (Some "speech.wav")
      None true None None None None None false two_blends
    = Some (inr ("", output_video_path), w').
Proof.
  assert (Haudio : "speech.wav" <> "") by discriminate.
  assert (Hfuel : (size (files two_blends) + 2 <= 4)%nat) by (vm_compute; lia).
  split; [exact Haudio |]. split; [exact Hfuel |].
  destruct (output_video_path_named_and_versioned (env := stub 0) 4
              "up/clip.mp4" "speech.wav" None true
              None None None None None false two_blends Haudio Hfuel)
    as (_ & _ & _ & _ & path & w1 & Hversioned & _ & Hfree
        & result & w' & Hrun & _ & Hok & _).
  exists path, w1, w'. split; [exact Hversioned |]. split; [exact Hfree |].
  rewrite Hrun. by rewrite (Hok eq_refl).
Defined.

(** The call that the panel makes when driving audio is uploaded and the
    source video is not: it raises, so there is no output name and no
    output path. *)
Lemma output_video_path_no_source_video_counterexample :
  process_files (env := stub 0) 4 None (Some "speech.wav") None true
    None None None None None false two_blends
  = Some (inl TypeError, two_blends) /\
  forall result w',
    process_files (env := stub 0) 4 None (Some "speech.wav") None true
      None None None None None false two_blends
    <> Some (inr result, w').
Proof. split; [reflexivity | discriminate]. Qed.

Lemma process_files_result_follows_exit_code_witness :
  "speech.wav" <> "" /\
  (size (files two_blends) + 2 <= 4)%nat /\
  exists output_video_path w',
    process_files (env := stub 0) 4 (Some "up/clip.mp4") (Some "speech.wav") None
      false None None None None None false two_blends
    = Some (inr ("", output_video_path), w').
Proof.
  assert (Haudio : "speech.wav" <> "") by discriminate.
  assert (Hfuel : (size (files two_blends) + 2 <= 4)%nat) by (vm_compute; lia).
  split; [exact Haudio |]. split; [exact Hfuel |].
  destruct (process_files_result_follows_exit_code (env := stub 0) 4
              "up/clip.mp4" "speech.wav" None false
              None None None None None false two_blends Haudio Hfuel)
    as (path & w1 & result & w' & _ & Hrun & _ & Hok & _).
  exists path, w'. rewrite Hrun. by rewrite (Hok eq_refl).
Defined.

(** ** The functions on concrete inputs *)

Example splitext_clip : os_path.splitext "clip.mp4" = ("clip", ".mp4").
Proof. reflexivity. Qed.

Example splitext_hidden :
  os_path.splitext "dir.d/.bashrc" = ("dir.d/.bashrc", "").
Proof. reflexivity. Qed.

Example splitext_dots : os_path.splitext "a/..b.tar.gz" = ("a/..b.tar", ".gz").
Proof. reflexivity. Qed.

Example basename_upload : os_path.basename "/tmp/up/clip.mp4" = "clip.mp4".
Proof. reflexivity. Qed.

Example join_results :
  os_path.join "./asserts/inference_result" "LipSick_Blend.mp4"
  = "./asserts/inference_result/LipSick_Blend.mp4".
Proof. reflexivity. Qed.

Example join_numbers : Py.join "," (map Py.str [6; 7; 8; 9; 10; -3]) = "6,7,8,9,10,-3".
Proof. by vm_compute. Qed.

(** The third blend of a directory that holds two. *)
Example third_blend :
  get_versioned_filename 4 "./asserts/inference_result/LipSick_Blend.mp4"
    two_blends
  = Some ("./asserts/inference_result/LipSick_Blend(2).mp4",
          {| files := files two_blends;
             events :=
               [ EExists "./asserts/inference_result/LipSick_Blend.mp4" true;
                 EExists "./asserts/inference_result/LipSick_Blend(1).mp4" true;
                 EExists "./asserts/inference_result/LipSick_Blend(2).mp4" false ] |}).
Proof. by vm_compute. Qed.

(** Too little fuel: the loop is cut before it has found a free name. *)
Example third_blend_out_of_fuel :
  get_versioned_filename 2 "./asserts/inference_result/LipSick_Blend.mp4"
    two_blends
  = None.
Proof. by vm_compute. Qed.

(** A failed run without auto-mask: the plain name is free, the process
    exits with 1, the failure message is returned with no path. *)
Example failed_run :
  process_files (env := stub 1) 4 (Some "up/clip.mp4") (Some "speech.wav") (Some 50)
    false (Some 1) (Some 2) (Some 3) (Some 4) (Some 5) false two_blends
  = Some
      (inr ("An error occurred during processing. Please check the console log.", ""),
       {| files := files two_blends;
          events :=
            [ EExists "./asserts/inference_result/clip_lipsick.mp4" false;
              ESubprocessRun
                [ "python"; "inference.py";
                  "--source_video_path"; "up/clip.mp4";
                  "--driving_audio_path"; "speech.wav";
                  "--pretrained_lipsick_path"; "./asserts/pretrained_lipsick.pth";
                  "--deepspeech_model_path"; "./asserts/output_graph.pb";
                  "--res_video_dir"; "./asserts/inference_result";
                  "--custom_reference_frames"; "1,2,3,4,5";
                  "--custom_crop_radius"; "50" ] 1;
              EPrint "An error occurred: exit status 1" ] |}).
Proof. by vm_compute. Qed.

(** The call without audio of the specification's test. *)
Example no_audio_run :
  process_files (env := stub 0) 4 (Some "up/clip.mp4") None None true
    None None None None None false two_blends
  = Some (inr ("", "Error: Audio file is required."),
          {| files := files two_blends;
             events := [EPrint "Please upload audio first."] |}).
Proof. by vm_compute. Qed.

Example visualize_0_and_2 :
  fst <$> visualize_reference_frames (env := stub 0) "up/clip.mp4"
            (Some 0) None (Some 2) None None (world0 ∅)
  = Some ["./temp/frame_0.jpg"; "./temp/frame_2.jpg"].
Proof. by vm_compute. Qed.

Example most_common_of_stub :
  fst <$> compute_crop_radius_stats (env := stub 0)
            (Some {| name := "up/clip.mp4" |}) (world0 ∅)
  = Some (inr 12).
Proof. by vm_compute. Qed.

(** ** Further properties *)

(** *** Slices, searches and appends *)

Lemma append_cons (c : ascii) (s t : string) :
  String c s +:+ t = String c (s +:+ t).
Proof. reflexivity. Qed.

Lemma take_drop (n : nat) (s : string) : Py.take n s +:+ Py.drop n s = s.
Proof.
  revert n. induction s as [|c s IH]; intros [|n]; try done.
  cbn [Py.take Py.drop]. by rewrite append_cons, IH.
Qed.

Lemma take_append_length (s t : string) :
  Py.take (String.length s) (s +:+ t) = s.
Proof.
  induction s as [|c s IH]; [by destruct t |].
  rewrite append_cons. cbn [String.length Py.take]. by rewrite IH.
Qed.

Lemma drop_append_length (s t : string) :
  Py.drop (String.length s) (s +:+ t) = t.
Proof. induction s as [|c s IH]; [by destruct t | exact IH]. Qed.

Lemma append_assoc (s t u : string) : (s +:+ t) +:+ u = s +:+ (t +:+ u).
Proof. induction s as [|c s IH]; [done | by rewrite !append_cons, IH]. Qed.

Lemma contains_append (c : ascii) (s t : string) :
  Py.contains c (s +:+ t) = Py.contains c s || Py.contains c t.
Proof.
  induction s as [|d s IH]; [done |].
  rewrite append_cons. cbn [Py.contains]. by rewrite IH, orb_assoc.
Qed.

Lemma contains_take (c : ascii) (n : nat) (s : string) :
  Py.contains c s = false -> Py.contains c (Py.take n s) = false.
Proof.
  revert n. induction s as [|d s IH]; intros [|n]; simpl; try done.
  intros [Hd Hs]%orb_false_elim. rewrite Hd. simpl. by apply IH.
Qed.

Lemma contains_drop (c : ascii) (n : nat) (s : string) :
  Py.contains c s = false -> Py.contains c (Py.drop n s) = false.
Proof.
  revert n. induction s as [|d s IH]; intros [|n]; simpl; try done.
  intros [_ Hs]%orb_false_elim. by apply IH.
Qed.

(** Dropping more of a string leaves a suffix of what dropping less
    leaves. *)
Lemma drop_drop (n m : nat) (s : string) :
  Py.drop m (Py.drop n s) = Py.drop (n + m) s.
Proof.
  revert n. induction s as [|d s IH]; intros [|n]; simpl; try done.
  - by destruct m.
Qed.

(** [rfind] answers [-1] or an index of the string. *)
Lemma rfind_from_range (c : ascii) (s : string) (i : Z) :
  0 <= i ->
  Py.rfind_from i c s = -1
  \/ i <= Py.rfind_from i c s < i + Z.of_nat (String.length s).
Proof.
  revert i. induction s as [|d r IH]; intros i Hi; simpl String.length.
  - by left.
  - cbn [Py.rfind_from]. destruct (IH (i + 1) ltac:(lia)) as [-> | Hin].
    + simpl. destruct (Ascii.eqb d c); [right; lia | by left].
    + destruct (0 <=? Py.rfind_from (i + 1) c r) eqn:Hj; [right; lia | lia].
Qed.

(** At the index that [rfind] answers stands [c], and [c] does not occur
    after it. *)
Lemma rfind_from_at (c : ascii) (s : string) :
  forall i : Z, 0 <= i -> i <= Py.rfind_from i c s ->
    exists rest,
      Py.drop (Z.to_nat (Py.rfind_from i c s - i)) s = String c rest /\
      Py.contains c rest = false.
Proof.
  induction s as [|d r IH]; intros i Hi; cbn [Py.rfind_from].
  - lia.
  - destruct (0 <=? Py.rfind_from (i + 1) c r) eqn:Hj.
    + intros _.
      destruct (rfind_from_range c r (i + 1) ltac:(lia)) as [Hnone | Hin]; [lia |].
      destruct (IH (i + 1) ltac:(lia) ltac:(lia)) as (rest & Hdrop & Hfree).
      exists rest. split; [| done].
      replace (Z.to_nat (Py.rfind_from (i + 1) c r - i))
        with (S (Z.to_nat (Py.rfind_from (i + 1) c r - (i + 1)))) by lia.
      done.
    + destruct (Ascii.eqb_spec d c) as [-> | _]; [| lia].
      intros _. exists r. rewrite Z.sub_diag. split; [done |].
      destruct (rfind_from_last c r (i + 1) ltac:(lia)) as [[_ Hfree] | [Hpos _]];
        [done | lia].
Qed.

(** A character that does not occur is not found. *)
Lemma rfind_from_absent (c : ascii) (s : string) (i : Z) :
  Py.contains c s = false -> Py.rfind_from i c s = -1.
Proof.
  revert i. induction s as [|d r IH]; intros i; simpl; [done |].
  intros [Hd Hr]%orb_false_elim. by rewrite (IH _ Hr), Hd.
Qed.

(** The last occurrence in an append is the last one of the second part
    when there is one, of the first part otherwise. *)
Lemma rfind_from_append (c : ascii) (s t : string) (i : Z) :
  0 <= i ->
  Py.rfind_from i c (s +:+ t)
  = if 0 <=? Py.rfind_from (i + Z.of_nat (String.length s)) c t
    then Py.rfind_from (i + Z.of_nat (String.length s)) c t
    else Py.rfind_from i c s.
Proof.
  revert i. induction s as [|d r IH]; intros i Hi.
  - change ("" +:+ t) with t. simpl. rewrite Z.add_0_r.
    destruct (rfind_from_range c t i Hi) as [-> | Hin]; [done |].
    destruct (Z.leb_spec 0 (Py.rfind_from i c t)); [done | lia].
  - rewrite append_cons. cbn [Py.rfind_from String.length].
    rewrite (IH (i + 1)) by lia.
    replace (i + 1 + Z.of_nat (String.length r))
      with (i + Z.of_nat (S (String.length r))) by lia.
    destruct (0 <=? Py.rfind_from (i + Z.of_nat (S (String.length r))) c t) eqn:Hj.
    + by rewrite Hj.
    + done.
Qed.

Lemma append_nil_r (s : string) : s +:+ "" = s.
Proof. induction s as [|c s IH]; [done | by rewrite append_cons, IH]. Qed.

(** The loop of [splitext] either gives up or splits at the dot. *)
Lemma splitext_scan_cases (steps filenameIndex dotIndex : nat) (p : string) :
  os_path.splitext_scan steps filenameIndex dotIndex p = (p, "")
  \/ os_path.splitext_scan steps filenameIndex dotIndex p
     = (Py.take dotIndex p, Py.drop dotIndex p).
Proof.
  revert filenameIndex. induction steps as [|steps IH]; intros filenameIndex.
  - by left.
  - cbn [os_path.splitext_scan]. destruct (negb _); [by right | apply IH].
Qed.

(** *** [os.path.splitext] as [get_versioned_filename] and
    [process_files] use it *)

(** X1. [splitext] cuts the path in two: root and extension put together
    give the path back. The extension is empty, or it is a dot followed
    by characters none of which is a dot; it never holds a slash, so the
    root keeps the whole directory part. *)
Theorem splitext_root_ext (p : string) :
  fst (os_path.splitext p) +:+ snd (os_path.splitext p) = p /\
  Py.contains os_path.sep (snd (os_path.splitext p)) = false /\
  (snd (os_path.splitext p) = ""
   \/ exists rest,
        snd (os_path.splitext p) = String os_path.extsep rest /\
        Py.contains os_path.extsep rest = false).
Proof.
  unfold os_path.splitext.
  set (sepIndex := Py.rfind os_path.sep p).
  set (dotIndex := Py.rfind os_path.extsep p).
  assert (Hgive_up :
    fst (p, "") +:+ snd (p, "") = p /\
    Py.contains os_path.sep (snd (p, "")) = false /\
    (snd (p, "") = ""
     \/ exists rest, snd (p, "") = String os_path.extsep rest /\
                     Py.contains os_path.extsep rest = false)).
  { simpl. rewrite append_nil_r. by eauto. }
  destruct (Z.ltb_spec sepIndex dotIndex) as [Hlt | _]; [| exact Hgive_up].
  destruct (splitext_scan_cases (Z.to_nat (dotIndex - (sepIndex + 1)))
              (Z.to_nat (sepIndex + 1)) (Z.to_nat dotIndex) p) as [-> | ->];
    [exact Hgive_up |].
  simpl. split; [apply take_drop |].
  assert (Hsep : -1 <= sepIndex).
  { destruct (rfind_from_range os_path.sep p 0 ltac:(lia)) as [H | H];
      unfold sepIndex, Py.rfind; lia. }
  split.
  - destruct (rfind_from_last os_path.sep p 0 ltac:(lia)) as [[_ Hfree] | [_ Hfree]].
    + by apply contains_drop.
    + fold (Py.rfind os_path.sep p) in Hfree. fold sepIndex in Hfree.
      rewrite Z.sub_0_r in Hfree.
      replace (Z.to_nat dotIndex)
        with (Z.to_nat (sepIndex + 1) + Z.to_nat (dotIndex - (sepIndex + 1)))%nat
        by lia.
      rewrite <- drop_drop. by apply contains_drop.
  - right.
    destruct (rfind_from_at os_path.extsep p 0 ltac:(lia)) as (rest & Hdrop & Hfree).
    { fold (Py.rfind os_path.extsep p). fold dotIndex. lia. }
    fold (Py.rfind os_path.extsep p) in Hdrop. fold dotIndex in Hdrop.
    rewrite Z.sub_0_r in Hdrop. eauto.
Qed.

(** What [basename] returns holds no slash. *)
Lemma basename_no_sep (p : string) :
  Py.contains os_path.sep (os_path.basename p) = false.
Proof.
  unfold os_path.basename, Py.rfind.
  destruct (rfind_from_last os_path.sep p 0 ltac:(lia)) as [[-> Hfree] | [_ Hfree]].
  - done.
  - by rewrite Z.sub_0_r in Hfree.
Qed.

(** The loop of [splitext] splits as soon as the last component shows a
    character that is not a dot. *)
Lemma splitext_scan_split (a : string) :
  forall (pre b : string) (ch : ascii) (steps dotIndex : nat),
    ch <> os_path.extsep ->
    (String.length a < steps)%nat ->
    os_path.splitext_scan steps (String.length pre) dotIndex
      (pre +:+ a +:+ String ch b)
    = (Py.take dotIndex (pre +:+ a +:+ String ch b),
       Py.drop dotIndex (pre +:+ a +:+ String ch b)).
Proof.
  induction a as [|x a IH]; intros pre b ch steps dotIndex Hch Hsteps;
    (destruct steps as [|steps]; [simpl in Hsteps; lia |]);
    cbn [os_path.splitext_scan]; unfold Py.slice1;
    rewrite drop_append_length.
  - change ("" +:+ String ch b) with (String ch b). cbn [Py.take].
    destruct (String.eqb_spec (String ch "") (String os_path.extsep "")) as [Heq | _];
      [| done].
    by injection Heq.
  - rewrite append_cons. cbn [Py.take].
    destruct (String.eqb_spec (String x "") (String os_path.extsep "")) as [Heq | _];
      [| done].
    injection Heq as ->. cbn [negb].
    replace (pre +:+ String os_path.extsep (a +:+ String ch b))
      with ((pre +:+ String os_path.extsep "") +:+ a +:+ String ch b)
      by (by rewrite append_assoc).
    replace (S (String.length pre))
      with (String.length (pre +:+ String os_path.extsep ""))
      by (rewrite append_length; simpl; lia).
    apply IH; [done | simpl in Hsteps; lia].
Qed.

(** A name made of a stem without slash, with a character that is not a
    dot, and of [.mp4], placed in the results directory: [splitext] cuts
    it before [.mp4] and [basename] gives the name back. *)
Lemma results_mp4_path (a b : string) (ch : ascii) :
  Py.contains os_path.sep (a +:+ String ch b) = false ->
  ch <> os_path.extsep ->
  let stem := a +:+ String ch b in
  let p := "./asserts/inference_result/" +:+ stem +:+ ".mp4" in
  os_path.splitext p = ("./asserts/inference_result/" +:+ stem, ".mp4") /\
  os_path.basename p = stem +:+ ".mp4".
Proof.
  intros Hstem Hch stem p.
  assert (Hsep : Py.rfind os_path.sep p = 26).
  { unfold Py.rfind, p. rewrite rfind_from_append by lia.
    rewrite rfind_from_absent; [done |].
    rewrite contains_append. fold stem in Hstem. by rewrite Hstem. }
  assert (Hlen : String.length ("./asserts/inference_result/" +:+ stem)
                 = (27 + String.length stem)%nat).
  { by rewrite append_length. }
  assert (Hdot : Py.rfind os_path.extsep p
                 = Z.of_nat (27 + String.length stem)).
  { unfold Py.rfind, p. rewrite <- append_assoc.
    rewrite rfind_from_append by lia. rewrite Hlen.
    set (k := 0 + Z.of_nat (27 + String.length stem)).
    assert (Hk : Py.rfind_from k os_path.extsep ".mp4" = k) by reflexivity.
    rewrite Hk. unfold k. destruct (Z.leb_spec 0 (0 + Z.of_nat (27 + String.length stem))); lia. }
  split.
  - unfold os_path.splitext. rewrite Hsep, Hdot.
    destruct (Z.ltb_spec 26 (Z.of_nat (27 + String.length stem))); [| lia].
    replace (Z.to_nat (26 + 1)) with (String.length "./asserts/inference_result/")
      by (simpl; lia).
    replace (Z.to_nat (Z.of_nat (27 + String.length stem) - (26 + 1)))
      with (String.length stem) by lia.
    rewrite Nat2Z.id, <- Hlen.
    assert (Hp : p = "./asserts/inference_result/" +:+ a +:+ String ch (b +:+ ".mp4")).
    { unfold p, stem. by rewrite !append_assoc. }
    rewrite Hp, splitext_scan_split.
    + rewrite <- Hp. unfold p. rewrite <- append_assoc.
      by rewrite take_append_length, drop_append_length.
    + done.
    + unfold stem. rewrite append_length. simpl. lia.
  - unfold os_path.basename. rewrite Hsep.
    replace (Z.to_nat (26 + 1)) with (String.length "./asserts/inference_result/")
      by (simpl; lia).
    unfold p. by rewrite drop_append_length.
Qed.

(** *** Where [process_files] puts its output *)

(** The stem of the output name, the candidate path and how [os.path]
    takes the candidate apart. *)
Lemma output_candidate_facts (source_video : string) (auto_mask : bool) :
  let stem :=
    if auto_mask then "LipSick_Blend"
    else fst (os_path.splitext (os_path.basename source_video)) +:+ "_lipsick" in
  let candidate :=
    os_path.join res_video_dir (output_video_name source_video auto_mask) in
  Py.contains os_path.sep stem = false /\
  output_video_name source_video auto_mask = stem +:+ ".mp4" /\
  candidate = "./asserts/inference_result/" +:+ stem +:+ ".mp4" /\
  os_path.splitext candidate = ("./asserts/inference_result/" +:+ stem, ".mp4") /\
  os_path.basename candidate = stem +:+ ".mp4".
Proof.
  intros stem candidate.
  assert (Hname : output_video_name source_video auto_mask = stem +:+ ".mp4").
  { unfold output_video_name, stem. destruct auto_mask; simpl; [done |].
    by rewrite append_assoc. }
  assert (Hcandidate : candidate = "./asserts/inference_result/" +:+ stem +:+ ".mp4").
  { unfold candidate. rewrite join_res_video_dir.
    - by rewrite Hname.
    - apply output_video_name_not_absolute. }
  assert (Hbase : Py.contains os_path.sep
                    (fst (os_path.splitext (os_path.basename source_video)))
                  = false).
  { destruct (splitext_root_prefix (os_path.basename source_video)) as [-> | [n ->]].
    - apply basename_no_sep.
    - apply contains_take, basename_no_sep. }
  assert (Hstem : Py.contains os_path.sep stem = false).
  { unfold stem. destruct auto_mask; [done |].
    rewrite contains_append, Hbase. done. }
  split; [exact Hstem |]. split; [exact Hname |]. split; [exact Hcandidate |].
  rewrite Hcandidate. unfold stem in *. destruct auto_mask.
  - apply (results_mp4_path "" "ipSick_Blend" "L"); done.
  - apply (results_mp4_path
             (fst (os_path.splitext (os_path.basename source_video)))
             "lipsick" "_"); done.
Qed.

(** X2. Whatever the path of the source video, the candidate output path
    is [./asserts/inference_result/<stem>.mp4] with a stem that holds no
    slash: the output lies directly in the results directory (its base
    name is the output name) and its extension is [.mp4]. The stem is
    [LipSick_Blend] with auto-mask, and the root of the source's base name
    followed by [_lipsick] without. *)
Theorem output_candidate_in_results_dir (source_video : string) (auto_mask : bool) :
  let stem :=
    if auto_mask then "LipSick_Blend"
    else fst (os_path.splitext (os_path.basename source_video)) +:+ "_lipsick" in
  let candidate :=
    os_path.join res_video_dir (output_video_name source_video auto_mask) in
  Py.contains os_path.sep stem = false /\
  candidate = "./asserts/inference_result/" +:+ stem +:+ ".mp4" /\
  os_path.splitext candidate = ("./asserts/inference_result/" +:+ stem, ".mp4") /\
  os_path.basename candidate = output_video_name source_video auto_mask.
Proof.
  destruct (output_candidate_facts source_video auto_mask)
    as (Hstem & Hname & Hcandidate & Hsplit & Hbase).
  cbv zeta in *. split; [exact Hstem |]. split; [exact Hcandidate |].
  split; [exact Hsplit |]. rewrite Hbase. by symmetry.
Qed.

Section OutputPath.

Context {Image Stat : Type} {env : Collaborators Image Stat}.
Local Abbreviation World := (World Image Stat).

(** X3. In a call with a source video path and driving audio, the
    inference process running to its exit: an exit code other than 0
    gives the failure pair, the exit code 0 gives the path that the
    versioner returned, and that path is
    [./asserts/inference_result/<stem>.mp4] or
    [./asserts/inference_result/<stem>(n).mp4] with [n >= 1]: an [.mp4]
    directly inside the results directory, the number coming before the
    extension. *)
Theorem process_files_output_path_shape
    (fuel : nat) (source_video driving_audio : string)
    (custom_crop_radius : option Z) (auto_mask : bool)
    (r1 r2 r3 r4 r5 : option Z) (activate_custom_frames : bool) (w : World) :
  driving_audio <> "" ->
  (size (files w) + 2 <= fuel)%nat ->
  let stem :=
    if auto_mask then "LipSick_Blend"
    else fst (os_path.splitext (os_path.basename source_video)) +:+ "_lipsick" in
  let command :=
    cmd source_video driving_audio custom_crop_radius auto_mask
        (ref_indices_str custom_crop_radius [r1; r2; r3; r4; r5])
        activate_custom_frames in
  exists output_video_path at_launch result w',
    get_versioned_filename fuel
      (os_path.join res_video_dir (output_video_name source_video auto_mask)) w
    = Some (output_video_path, at_launch) /\
    process_files fuel (Some source_video) (Some driving_audio)
                  custom_crop_radius auto_mask r1 r2 r3 r4 r5
                  activate_custom_frames w
    = Some (result, w') /\
    (fst (inference_py command at_launch) <> 0 ->
       result = inr ("An error occurred during processing. Please check the console log.", "")) /\
    (fst (inference_py command at_launch) = 0 ->
       result = inr ("", output_video_path)) /\
    (output_video_path = "./asserts/inference_result/" +:+ stem +:+ ".mp4"
     \/ exists n : Z,
          1 <= n /\
          output_video_path
          = "./asserts/inference_result/" +:+ stem
            +:+ "(" +:+ Py.str n +:+ ")" +:+ ".mp4").
Proof.
  intros Haudio Hfuel stem command.
  destruct (process_files_run fuel source_video driving_audio custom_crop_radius
              auto_mask r1 r2 r3 r4 r5 activate_custom_frames w Haudio Hfuel)
    as (path & probes & Hversioned & Hnext & _ & Hrun).
  destruct (output_candidate_facts source_video auto_mask)
    as (_ & _ & Hcandidate & Hsplit & _).
  cbv zeta in Hversioned, Hnext, Hrun, Hcandidate, Hsplit.
  fold stem in Hcandidate, Hsplit. fold command in Hrun.
  unfold next_free in Hnext. rewrite Hsplit in Hnext.
  eexists _, _, _, _. split; [exact Hversioned |]. split; [exact Hrun |].
  split; [| split].
  - intros Hcode. apply Z.eqb_neq in Hcode. by rewrite Hcode.
  - intros ->. done.
  - destruct Hnext as [[_ ->] | (_ & n & Hn & -> & _)].
    + left. by rewrite Hcandidate.
    + right. exists n. split; [exact Hn |].
      unfold versioned. by rewrite !append_assoc.
Qed.

End OutputPath.

(** The prefix that ends at a character ends with that character. *)
Lemma endswith_take (c : ascii) (s : string) :
  forall (n : nat) (rest : string),
    Py.drop n s = String c rest -> Py.endswith c (Py.take (S n) s) = true.
Proof.
  induction s as [|d s IH]; intros n rest Hdrop.
  - by destruct n.
  - destruct n as [|n]; cbn [Py.drop] in Hdrop.
    + injection Hdrop as -> _. cbn. apply Ascii.eqb_refl.
    + specialize (IH n rest Hdrop).
      change (Py.take (S (S n)) (String d s)) with (String d (Py.take (S n) s)).
      cbn [Py.endswith]. destruct (Py.take (S n) s); [done | exact IH].
Qed.

(** X4. [basename] gives the last component of a path: the path is a
    directory part followed by the base name, the directory part is empty
    or ends with a slash, and the base name holds no slash. So the output
    name that [process_files] derives from the source video owes nothing
    to the directories of its path. *)
Theorem basename_last_component (p : string) :
  exists dir : string,
    p = dir +:+ os_path.basename p /\
    (dir = "" \/ Py.endswith os_path.sep dir = true) /\
    Py.contains os_path.sep (os_path.basename p) = false.
Proof.
  exists (Py.take (Z.to_nat (Py.rfind os_path.sep p + 1)) p).
  split; [by rewrite take_drop |]. split; [| apply basename_no_sep].
  unfold Py.rfind.
  destruct (rfind_from_range os_path.sep p 0 ltac:(lia)) as [-> | Hin].
  - left. by destruct p.
  - right.
    destruct (rfind_from_at os_path.sep p 0 ltac:(lia) ltac:(lia))
      as (rest & Hdrop & _).
    rewrite Z.sub_0_r in Hdrop.
    replace (Z.to_nat (Py.rfind_from 0 os_path.sep p + 1))
      with (S (Z.to_nat (Py.rfind_from 0 os_path.sep p))) by lia.
    by apply (endswith_take _ _ _ rest).
Qed.

(** *** More on the Filename Versioner *)

Lemma splitext_append (p : string) :
  fst (os_path.splitext p) +:+ snd (os_path.splitext p) = p.
Proof.
  unfold os_path.splitext.
  destruct (_ <? _); [| apply append_nil_r].
  destruct (splitext_scan_cases
              (Z.to_nat (Py.rfind os_path.extsep p - (Py.rfind os_path.sep p + 1)))
              (Z.to_nat (Py.rfind os_path.sep p + 1))
              (Z.to_nat (Py.rfind os_path.extsep p)) p) as [-> | ->].
  - apply append_nil_r.
  - apply take_drop.
Qed.

Section VersionerMore.

Context {Image Stat : Type}.
Local Abbreviation World := (World Image Stat).
Local Abbreviation Event := (Event Image Stat).

(** A versioned name is never the name it versions. *)
Lemma versioned_ne_candidate (filepath : string) (n : Z) :
  versioned (fst (os_path.splitext filepath))
            (snd (os_path.splitext filepath)) n <> filepath.
Proof.
  intros Heq. rewrite <- (splitext_append filepath) in Heq at 3.
  unfold versioned in Heq.
  apply (inj (String.append _)) in Heq.
  apply (f_equal String.length) in Heq.
  rewrite !append_length in Heq. simpl in Heq. lia.
Qed.

Lemma taken_probes_map (base ext : string) (n : nat) :
  forall c : Z,
    taken_probes (Image:=Image) (Stat:=Stat) base ext c n
    = map (fun k : nat => EExists (versioned base ext (c + Z.of_nat k)) true)
          (seq 0 n).
Proof.
  induction n as [|n IH]; intros c; [done |].
  cbn [taken_probes seq map]. rewrite Z.add_0_r. f_equal.
  rewrite IH, <- seq_shift, map_map.
  apply map_ext. intros k. do 2 f_equal. lia.
Qed.

(** X5. What the versioner asks, in order: whether the candidate exists
    and, when it does, whether [base(1)ext] exists, then [base(2)ext], and
    so on, each name once, up to the first one that does not exist, which
    it returns. For a free candidate that is one question; for the result
    [base(n)ext] it is [n + 1] questions. *)
Theorem get_versioned_filename_probes
    (fuel : nat) (filepath : string) (w : World) :
  (size (files w) + 2 <= fuel)%nat ->
  let base := fst (os_path.splitext filepath) in
  let ext := snd (os_path.splitext filepath) in
  (filepath ∉ files w ->
   get_versioned_filename fuel filepath w
   = Some (filepath,
           {| files := files w;
              events := events w ++ [EExists filepath false] |})) /\
  (filepath ∈ files w ->
   exists n : nat,
     get_versioned_filename fuel filepath w
     = Some (versioned base ext (1 + Z.of_nat n),
             {| files := files w;
                events := events w
                  ++ EExists filepath true
                  :: map (fun k : nat =>
                            EExists (versioned base ext (1 + Z.of_nat k)) true)
                         (seq 0 n)
                  ++ [EExists (versioned base ext (1 + Z.of_nat n)) false] |})).
Proof.
  intros Hfuel base ext. unfold get_versioned_filename.
  unfold base, ext. destruct (os_path.splitext filepath) as [b e]. simpl.
  split.
  - intros Hout. destruct fuel as [|fuel]; [lia |].
    by rewrite versioned_loop_free.
  - intros Hin.
    destruct (first_free_exists (files w) b e 1) as (n & Hn & Hfree & Htaken).
    exists n. rewrite <- taken_probes_map.
    apply (versioned_loop_run b e n); [lia | done | done | done].
Qed.

(** X6. The number that the versioner puts in the name is at most the
    number of existing files: the candidate and the names numbered below
    it all exist and are pairwise distinct. *)
Theorem get_versioned_filename_suffix_bound
    (fuel : nat) (filepath : string) (w : World) :
  (size (files w) + 2 <= fuel)%nat ->
  filepath ∈ files w ->
  exists (n : Z) (w' : World),
    1 <= n <= Z.of_nat (size (files w)) /\
    get_versioned_filename fuel filepath w
    = Some (versioned (fst (os_path.splitext filepath))
                      (snd (os_path.splitext filepath)) n, w').
Proof.
  intros Hfuel Hin.
  destruct (get_versioned_filename_run fuel filepath w Hfuel)
    as (result & probes & Hrun & Hnext & _).
  unfold next_free in Hnext.
  pose proof (versioned_ne_candidate filepath) as Hne.
  destruct (os_path.splitext filepath) as [base ext]. simpl in *.
  destruct Hnext as [[Hout _] | (_ & n & Hn & -> & Hfree & Htaken)]; [done |].
  exists n. eexists. split; [| exact Hrun].
  split; [exact Hn |].
  set (name := fun k : nat => versioned base ext (1 + Z.of_nat k)).
  assert (Hinj : Inj (=) (=) name).
  { intros i j Hij. apply versioned_inj in Hij. lia. }
  assert (Hsub : filepath :: (name <$> seq 0 (Z.to_nat (n - 1)))
                 ⊆+ elements (files w)).
  { apply NoDup_submseteq.
    - apply NoDup_cons. split.
      + intros Hmem. apply list_elem_of_fmap in Hmem as (k & Hk & _).
        by apply (Hne (1 + Z.of_nat k)).
      + apply (NoDup_fmap_2 name), NoDup_seq.
    - intros x Hx. apply elem_of_elements.
      apply elem_of_cons in Hx as [-> | Hx]; [done |].
      apply list_elem_of_fmap in Hx as (k & -> & Hk).
      apply elem_of_seq in Hk. apply Htaken. lia. }
  apply submseteq_length in Hsub.
  rewrite length_cons, length_fmap, length_seq in Hsub.
  unfold size, set_size in *. simpl in *. lia.
Qed.

(** X7. Once a file has been created at the path that the versioner
    returned, the versioner returns another path for the same candidate:
    a numbered name that is not the one it gave before and at which no
    file exists, with a greater number when the earlier one was
    numbered. *)
Theorem get_versioned_filename_after_creation
    (fuel fuel2 : nat) (filepath : string) (w w2 : World)
    (first : string) (w1 : World) :
  (size (files w) + 2 <= fuel)%nat ->
  get_versioned_filename fuel filepath w = Some (first, w1) ->
  files w2 = {[first]} ∪ files w ->
  (size (files w2) + 2 <= fuel2)%nat ->
  let base := fst (os_path.splitext filepath) in
  let ext := snd (os_path.splitext filepath) in
  exists (n2 : Z) (w2' : World),
    1 <= n2 /\
    get_versioned_filename fuel2 filepath w2
    = Some (versioned base ext n2, w2') /\
    versioned base ext n2 <> first /\
    (versioned base ext n2 ∉ files w) /\
    forall n1 : Z, first = versioned base ext n1 -> n1 < n2.
Proof.
  intros Hfuel Hfirst Hfiles Hfuel2 base ext.
  destruct (get_versioned_filename_run fuel filepath w Hfuel)
    as (r1 & probes1 & Hrun1 & Hnext1 & _).
  rewrite Hfirst in Hrun1. injection Hrun1 as <- _.
  destruct (get_versioned_filename_run fuel2 filepath w2 Hfuel2)
    as (r2 & probes2 & Hrun2 & Hnext2 & _).
  unfold next_free in Hnext1, Hnext2. rewrite Hfiles in Hnext2.
  pose proof (versioned_ne_candidate filepath) as Hne.
  unfold base, ext. destruct (os_path.splitext filepath) as [b e]. simpl in *.
  assert (Hin2 : filepath ∈ ({[first]} ∪ files w : gset string)).
  { apply elem_of_union.
    destruct Hnext1 as [[_ ->] | [Hin _]];
      [left; by apply elem_of_singleton | by right]. }
  destruct Hnext2 as [[Hout2 _] | (_ & n2 & Hn2 & -> & Hfree2 & Htaken2)]; [done |].
  exists n2. eexists. split; [exact Hn2 |]. split; [exact Hrun2 |].
  split.
  { intros Heq. apply Hfree2, elem_of_union. left. by apply elem_of_singleton. }
  split.
  { intros Hin. apply Hfree2, elem_of_union. by right. }
  intros n1 Hn1.
  destruct Hnext1 as [[_ Heq] | (_ & m1 & Hm1 & Heq & Hfree1 & Htaken1)].
  - subst first. by destruct (Hne n1).
  - rewrite Heq in Hn1. apply versioned_inj in Hn1. subst m1.
    destruct (Z.lt_trichotomy n1 n2) as [Hlt | [-> | Hgt]]; [done | |].
    + destruct Hfree2. apply elem_of_union. left. by apply elem_of_singleton.
    + destruct Hfree2. apply elem_of_union. right. apply Htaken1. lia.
Qed.

End VersionerMore.

(** *** The string of reference indices *)

(** The decimal digits that [str] writes are not commas, and [str] writes
    at least one character. *)
Lemma pretty_N_go_no_comma (x : N) :
  forall s, Py.contains "," s = false ->
            Py.contains "," (pretty_N_go x s) = false.
Proof.
  induction (N.lt_wf_0 x) as [x _ IH]; intros s Hs.
  assert (x = 0 \/ 0 < x)%N as [-> | Hpos] by lia.
  - by rewrite pretty_N_go_0.
  - rewrite pretty_N_go_step by done. apply IH; [by apply N.div_lt |].
    cbn [Py.contains]. rewrite Hs.
    unfold pretty_N_char. by repeat case_match.
Qed.

Lemma pretty_N_go_length (x : N) :
  forall s, (String.length s <= String.length (pretty_N_go x s))%nat.
Proof.
  induction (N.lt_wf_0 x) as [x _ IH]; intros s.
  assert (x = 0 \/ 0 < x)%N as [-> | Hpos] by lia.
  - by rewrite pretty_N_go_0.
  - rewrite pretty_N_go_step by done.
    etrans; [| apply IH; by apply N.div_lt]. simpl. lia.
Qed.

Lemma pretty_N_no_comma (x : N) : Py.contains "," (pretty x) = false.
Proof.
  unfold pretty, pretty_N. case_decide; [done |].
  by apply pretty_N_go_no_comma.
Qed.

Lemma pretty_N_length (x : N) : (1 <= String.length (pretty x))%nat.
Proof.
  unfold pretty, pretty_N. case_decide; [simpl; lia |].
  rewrite pretty_N_go_step by lia.
  etrans; [| apply pretty_N_go_length]. simpl. lia.
Qed.

Lemma str_no_comma (n : Z) : Py.contains "," (Py.str n) = false.
Proof.
  unfold Py.str, pretty, pretty_Z. destruct n as [|p|p]; [done | |].
  - apply pretty_N_no_comma.
  - rewrite contains_append. simpl. apply pretty_N_no_comma.
Qed.

Lemma str_length (n : Z) : (1 <= String.length (Py.str n))%nat.
Proof.
  unfold Py.str, pretty, pretty_Z. destruct n as [|p|p]; [simpl; lia | |].
  - apply pretty_N_length.
  - rewrite append_length. simpl. lia.
Qed.

(** A join of at least one string, none of them empty, is not empty. *)
Lemma join_length (sep : string) (x : string) (l : list string) :
  (String.length x <= String.length (Py.join sep (x :: l)))%nat.
Proof.
  destruct l as [|y l]; cbn [Py.join]; [done |].
  rewrite append_length. lia.
Qed.

(** Up to the first comma, two strings that are equal have equal parts. *)
Lemma append_comma_inj (x : string) :
  forall y s t : string,
    Py.contains "," x = false -> Py.contains "," y = false ->
    x +:+ "," +:+ s = y +:+ "," +:+ t -> x = y /\ s = t.
Proof.
  induction x as [|c x IH]; intros [|d y] s t Hx Hy Heq.
  - by injection Heq.
  - injection Heq as <- _. by cbn in Hy.
  - injection Heq as -> _. by cbn in Hx.
  - rewrite !append_cons in Heq. injection Heq as -> Heq.
    cbn [Py.contains] in Hx, Hy.
    apply orb_false_elim in Hx as [_ Hx]. apply orb_false_elim in Hy as [_ Hy].
    destruct (IH y s t Hx Hy Heq) as [-> ->]. done.
Qed.

(** Joining with commas loses nothing when no part holds a comma. *)
Lemma join_comma_inj (l1 : list string) :
  forall l2 : list string,
    length l1 = length l2 ->
    Forall (fun x => Py.contains "," x = false) l1 ->
    Forall (fun x => Py.contains "," x = false) l2 ->
    Py.join "," l1 = Py.join "," l2 -> l1 = l2.
Proof.
  induction l1 as [|x r1 IH]; intros [|y r2] Hlen H1 H2 Heq;
    try done.
  apply Forall_cons in H1 as [Hx H1]. apply Forall_cons in H2 as [Hy H2].
  destruct r1 as [|a r1], r2 as [|b r2]; try done.
  - cbn in Heq. by rewrite Heq.
  - cbn [Py.join] in Heq.
    apply append_comma_inj in Heq as [-> Heq]; [| done | done].
    f_equal. apply IH; [simpl in *; lia | done | done | done].
Qed.

Lemma map_inj_eq {A B} (f : A -> B) (l1 l2 : list A) :
  (forall a b, f a = f b -> a = b) -> map f l1 = map f l2 -> l1 = l2.
Proof.
  intros Hf. revert l2. induction l1 as [|a l1 IH]; intros [|b l2] Heq;
    try done.
  injection Heq as Hab Heq. by rewrite (Hf _ _ Hab), (IH _ Heq).
Qed.

(** X8. The string passed after [--custom_reference_frames] is empty
    exactly when the indices given are not five: a string made from five
    indices is never empty, so the empty string can only mean that the
    choice is left to the inference process. *)
Theorem ref_indices_str_empty_iff
    (custom_crop_radius : option Z) (slots : list (option Z)) :
  ref_indices_str custom_crop_radius slots = ""
  <-> length (collect slots) <> 5%nat.
Proof.
  assert (Hlen : length (ref_indices custom_crop_radius slots)
                 = length (collect slots)).
  { unfold ref_indices. destruct (none_or_zero _); [apply length_map | done]. }
  unfold ref_indices_str. rewrite Hlen.
  destruct (Nat.eqb_spec (length (collect slots)) 5) as [Hfive | Hother];
    [| done].
  split; [| done]. intros Hempty. exfalso.
  rewrite <- Hlen in Hfive.
  destruct (ref_indices custom_crop_radius slots) as [|index rest]; [done |].
  pose proof (join_length "," (Py.str index) (map Py.str rest)) as Hjoin.
  cbn [map] in Hempty. rewrite Hempty in Hjoin.
  pose proof (str_length index). simpl in Hjoin. lia.
Qed.

(** X9. Nothing is lost in the string: two calls with the same crop
    radius and five indices each that pass the same string were given the
    same indices. *)
Theorem ref_indices_str_inj
    (custom_crop_radius : option Z) (slots1 slots2 : list (option Z)) :
  length (collect slots1) = 5%nat ->
  length (collect slots2) = 5%nat ->
  ref_indices_str custom_crop_radius slots1
  = ref_indices_str custom_crop_radius slots2 ->
  collect slots1 = collect slots2.
Proof.
  intros Hfive1 Hfive2.
  assert (Hlen : forall slots, length (ref_indices custom_crop_radius slots)
                               = length (collect slots)).
  { intros slots. unfold ref_indices.
    destruct (none_or_zero _); [apply length_map | done]. }
  unfold ref_indices_str. rewrite !Hlen, Hfive1, Hfive2. cbn [Nat.eqb].
  intros Heq. apply join_comma_inj in Heq.
  - apply map_inj_eq in Heq; [| intros a b; apply (inj pretty)].
    unfold ref_indices in Heq.
    destruct (none_or_zero custom_crop_radius); [| done].
    apply map_inj_eq in Heq; [done | intros a b; lia].
  - by rewrite !length_map, !Hlen, Hfive1, Hfive2.
  - apply Forall_forall. intros x Hx.
    apply list_elem_of_In, in_map_iff in Hx as (n & <- & _). apply str_no_comma.
  - apply Forall_forall. intros x Hx.
    apply list_elem_of_In, in_map_iff in Hx as (n & <- & _). apply str_no_comma.
Qed.

(** *** The order of what [process_files] does *)

Section ProcessOrder.

Context {Image Stat : Type} {env : Collaborators Image Stat}.
Local Abbreviation World := (World Image Stat).
Local Abbreviation Event := (Event Image Stat).

(** X10. In a call with driving audio and no source video the call
    raises [TypeError] before anything is asked of the outside world. In
    a call with driving audio and a source video path, the inference
    process running to its exit, everything that is asked about the file
    system is asked before the process is launched, and the process finds
    the files as they were when the call began. After the launch the call
    only prints: it does not look whether the output file exists, and the
    files it leaves are the ones the process left. *)
Theorem process_files_probes_then_run_then_prints
    (fuel : nat) (source_video driving_audio : string)
    (custom_crop_radius : option Z) (auto_mask : bool)
    (r1 r2 r3 r4 r5 : option Z) (activate_custom_frames : bool) (w : World) :
  driving_audio <> "" ->
  (size (files w) + 2 <= fuel)%nat ->
  let command :=
    cmd source_video driving_audio custom_crop_radius auto_mask
        (ref_indices_str custom_crop_radius [r1; r2; r3; r4; r5])
        activate_custom_frames in
  process_files fuel None (Some driving_audio) custom_crop_radius auto_mask
                r1 r2 r3 r4 r5 activate_custom_frames w
  = Some (inl TypeError, w) /\
  exists result w' probes prints,
    let at_launch := {| files := files w; events := events w ++ probes |} in
    process_files fuel (Some source_video) (Some driving_audio)
                  custom_crop_radius auto_mask r1 r2 r3 r4 r5
                  activate_custom_frames w
    = Some (inr result, w') /\
    events w'
    = events w ++ probes
      ++ ESubprocessRun command (fst (inference_py command at_launch))
      :: prints /\
    forallb is_probe probes = true /\
    Forall (fun e => exists msg, e = EPrint msg) prints /\
    files w' = snd (inference_py command at_launch).
Proof.
  intros Haudio Hfuel command.
  split; [by apply process_files_no_source |].
  destruct (process_files_run fuel source_video driving_audio custom_crop_radius
              auto_mask r1 r2 r3 r4 r5 activate_custom_frames w Haudio Hfuel)
    as (path & probes & _ & _ & Hprobes & Hrun).
  cbv zeta in Hrun. fold command in Hrun.
  eexists _, _, probes, _. cbv zeta. split; [exact Hrun |].
  split; [reflexivity |]. split; [exact Hprobes |]. split; [| done].
  unfold closing_prints. destruct (_ =? 0); repeat constructor; eauto.
Qed.

End ProcessOrder.

(** *** The further properties at concrete inputs *)

Lemma process_files_output_path_shape_witness :
  "speech.wav" <> "" /\
  (size (files two_blends) + 2 <= 4)%nat /\
  exists output_video_path w',
    process_files (env := stub 0) 4 (Some "up/clip.mp4") (Some "speech.wav")
      None true None None None None None false two_blends
    = Some (inr ("", output_video_path), w') /\
    (output_video_path = "./asserts/inference_result/LipSick_Blend.mp4"
     \/ exists n : Z,
          1 <= n /\
          output_video_path
          = "./asserts/inference_result/LipSick_Blend"
            +:+ "(" +:+ Py.str n +:+ ")" +:+ ".mp4").
Proof.
  assert (Haudio : "speech.wav" <> "") by discriminate.
  assert (Hfuel : (size (files two_blends) + 2 <= 4)%nat) by (vm_compute; lia).
  split; [exact Haudio |]. split; [exact Hfuel |].
  destruct (process_files_output_path_shape (env := stub 0) 4
              "up/clip.mp4" "speech.wav" None true
              None None None None None false two_blends Haudio Hfuel)
    as (path & at_launch & result & w' & _ & Hrun & _ & Hok & Hshape).
  exists path, w'. split; [| exact Hshape].
  rewrite Hrun. by rewrite (Hok eq_refl).
Defined.

Lemma get_versioned_filename_probes_witness :
  (size (files two_blends) + 2 <= 4)%nat /\
  exists n : nat,
    get_versioned_filename 4
      "./asserts/inference_result/LipSick_Blend.mp4" two_blends
    = Some (versioned "./asserts/inference_result/LipSick_Blend" ".mp4"
              (1 + Z.of_nat n),
            {| files := files two_blends;
               events := events two_blends
                 ++ EExists "./asserts/inference_result/LipSick_Blend.mp4" true
                 :: map (fun k : nat =>
                           EExists (versioned
                                      "./asserts/inference_result/LipSick_Blend"
                                      ".mp4" (1 + Z.of_nat k)) true)
                        (seq 0 n)
                 ++ [EExists (versioned
                                "./asserts/inference_result/LipSick_Blend"
                                ".mp4" (1 + Z.of_nat n)) false] |}).
Proof.
  assert (Hfuel : (size (files two_blends) + 2 <= 4)%nat) by (vm_compute; lia).
  split; [exact Hfuel |].
  apply (get_versioned_filename_probes 4
           "./asserts/inference_result/LipSick_Blend.mp4" two_blends Hfuel).
  apply (bool_decide_eq_true_1 _). by vm_compute.
Defined.

Lemma get_versioned_filename_suffix_bound_witness :
  (size (files two_blends) + 2 <= 4)%nat /\
  ("./asserts/inference_result/LipSick_Blend.mp4" ∈ files two_blends) /\
  exists (n : Z) (w' : World string Z),
    1 <= n <= Z.of_nat (size (files two_blends)) /\
    get_versioned_filename 4
      "./asserts/inference_result/LipSick_Blend.mp4" two_blends
    = Some (versioned "./asserts/inference_result/LipSick_Blend" ".mp4" n, w').
Proof.
  assert (Hfuel : (size (files two_blends) + 2 <= 4)%nat) by (vm_compute; lia).
  assert (Hin : "./asserts/inference_result/LipSick_Blend.mp4" ∈ files two_blends).
  { apply (bool_decide_eq_true_1 _). by vm_compute. }
  split; [exact Hfuel |]. split; [exact Hin |].
  exact (get_versioned_filename_suffix_bound 4
           "./asserts/inference_result/LipSick_Blend.mp4" two_blends Hfuel Hin).
Defined.

Lemma get_versioned_filename_after_creation_witness :
  exists (n2 : Z) (w2' : World string Z),
    1 <= n2 /\
    get_versioned_filename 5
      "./asserts/inference_result/LipSick_Blend.mp4"
      (world0 ({["./asserts/inference_result/LipSick_Blend(2).mp4"]}
               ∪ files two_blends))
    = Some (versioned "./asserts/inference_result/LipSick_Blend" ".mp4" n2, w2') /\
    versioned "./asserts/inference_result/LipSick_Blend" ".mp4" n2
    <> "./asserts/inference_result/LipSick_Blend(2).mp4" /\
    (versioned "./asserts/inference_result/LipSick_Blend" ".mp4" n2
     ∉ files two_blends) /\
    forall n1 : Z,
      "./asserts/inference_result/LipSick_Blend(2).mp4"
      = versioned "./asserts/inference_result/LipSick_Blend" ".mp4" n1 ->
      n1 < n2.
Proof.
  apply (get_versioned_filename_after_creation 4 5
           "./asserts/inference_result/LipSick_Blend.mp4" two_blends
           (world0 ({["./asserts/inference_result/LipSick_Blend(2).mp4"]}
                    ∪ files two_blends))
           "./asserts/inference_result/LipSick_Blend(2).mp4"
           {| files := files two_blends;
              events :=
                [ EExists "./asserts/inference_result/LipSick_Blend.mp4" true;
                  EExists "./asserts/inference_result/LipSick_Blend(1).mp4" true;
                  EExists "./asserts/inference_result/LipSick_Blend(2).mp4" false ] |}).
  - vm_compute. lia.
  - by vm_compute.
  - reflexivity.
  - vm_compute. lia.
Defined.

Lemma ref_indices_str_inj_witness :
  collect [Some 1; Some 2; Some 3; Some 4; Some 5]
  = collect [Some 1; None; Some 2; Some 3; Some 4; Some 5].
Proof.
  apply (ref_indices_str_inj None
           [Some 1; Some 2; Some 3; Some 4; Some 5]
           [Some 1; None; Some 2; Some 3; Some 4; Some 5]).
  - reflexivity.
  - reflexivity.
  - by vm_compute.
Defined.

Lemma process_files_probes_then_run_then_prints_witness :
  "speech.wav" <> "" /\
  (size (files two_blends) + 2 <= 4)%nat /\
  process_files (env := stub 1) 4 None (Some "speech.wav") (Some 50)
    true None None None None None false two_blends
  = Some (inl TypeError, two_blends) /\
  exists result w' (probes prints : list (Event string Z)),
    process_files (env := stub 1) 4 (Some "up/clip.mp4") (Some "speech.wav")
      (Some 50) true None None None None None false two_blends
    = Some (inr result, w') /\
    forallb is_probe probes = true /\
    Forall (fun e => exists msg, e = EPrint msg) prints /\
    files w' = files two_blends.
Proof.
  assert (Haudio : "speech.wav" <> "") by discriminate.
  assert (Hfuel : (size (files two_blends) + 2 <= 4)%nat) by (vm_compute; lia).
  split; [exact Haudio |]. split; [exact Hfuel |].
  destruct (process_files_probes_then_run_then_prints (env := stub 1) 4
              "up/clip.mp4" "speech.wav" (Some 50) true
              None None None None None false two_blends Haudio Hfuel)
    as (Hraise & result & w' & probes & prints
        & Hrun & _ & Hprobes & Hprints & Hfiles).
  split; [exact Hraise |].
  exists result, w', probes, prints.
  split; [exact Hrun |]. split; [exact Hprobes |]. split; [exact Hprints |].
  exact Hfiles.
Defined.
